(** * QRS detector (qrs_detector_online/QRSDetector.py)

    A shallow embedding of the online Pan-Tompkins style QRS detector and the
    properties of its specification.

    Python floats and numpy float64 values are IEEE 754 binary64 numbers and
    are modelled by Rocq's primitive floats, which have the same arithmetic
    and the same comparisons (every comparison with a NaN is false).  Python
    integers are modelled by [Z], array positions by [nat], numpy arrays and
    the deque by lists.  A raised Python exception is the [None] of an
    [option]. *)

From Stdlib Require Import Floats ZArith List Bool Lia Sorted PeanoNat Uint63.
Import ListNotations.

Set Warnings "-inexact-float".

(** ** Floating-point comparison *)

(** Python's [x > y] on floats. *)
Definition fgt (x y : float) : bool := PrimFloat.ltb y x.

Infix ">.?" := fgt (at level 70, no associativity).

(** ** The numpy operations the detector uses *)

Module Np.

(** [np.zeros(n)] and [np.ones(n)]. *)
Definition zeros (n : nat) : list float := repeat 0%float n.
Definition ones (n : nat) : list float := repeat 1%float n.

(** [np.ediff1d(a)]: the differences between consecutive elements. *)
Fixpoint ediff1d (a : list float) : list float :=
  match a with
  | x :: (y :: _) as t => (y - x)%float :: ediff1d t
  | _ => []
  end.

(** [a ** 2], which numpy evaluates as the elementwise square [a * a]. *)
Definition square (a : list float) : list float :=
  map (fun v => (v * v)%float) a.

(** Left-to-right floating-point sum starting from [0.0]. *)
Definition fsum (l : list float) : float :=
  fold_left PrimFloat.add l 0%float.

(** The positions [m] of [a] that overlap [v] at output position [k] of the
    full convolution: [k - (len v - 1) <= m <= min k (len a - 1)], in
    ascending order. *)
Definition overlap (la lv k : nat) : list nat :=
  let lo := k - (lv - 1) in
  let hi := Nat.min k (la - 1) in
  seq lo (S hi - lo).

(** Entry [k] of the full discrete convolution, [sum_m a[m] * v[k - m]]. *)
Definition conv_at (a v : list float) (k : nat) : float :=
  fsum (map (fun m => (nth m a 0 * nth (k - m) v 0)%float)
            (overlap (length a) (length v) k)).

(** [np.convolve(a, v)] in its default mode "full".  numpy first swaps the
    operands so that the first one is the longer, and raises [ValueError]
    when one of them is empty.  The order in which numpy's inner dot
    product adds the terms is not part of its interface; the terms are
    added here by ascending position in the longer operand. *)
Definition convolve (a v : list float) : option (list float) :=
  let (a, v) := if length a <? length v then (v, a) else (a, v) in
  match a, v with
  | [], _ => None
  | _, [] => None
  | _, _ => Some (map (conv_at a v) (seq 0 (length a + length v - 1)))
  end.

(** The slice [x[start : start + len]] (clipped to the array, as Python
    slices are). *)
Definition slice (x : list float) (start len : nat) : list float :=
  firstn len (skipn start x).

(** [x[:n] = c]. *)
Definition fill_prefix (n : nat) (c : float) (x : list float) : list float :=
  repeat c (Nat.min n (length x)) ++ skipn n x.

(** [x[-n:] = c]; for [n = 0] the slice [x[-0:]] is the whole array. *)
Definition fill_suffix (n : nat) (c : float) (x : list float) : list float :=
  if n =? 0 then repeat c (length x)
  else firstn (length x - n) x ++ repeat c (Nat.min n (length x)).

(** [x[start : start + len(d)] = d], for a slice that lies inside [x]. *)
Definition assign (start : nat) (d x : list float) : list float :=
  firstn start x ++ d ++ skipn (start + length d) x.

(** Elementwise [h_c > h_o] of two arrays of the same length. *)
Fixpoint greater (h_c h_o : list float) : list bool :=
  match h_c, h_o with
  | c :: h_c', o :: h_o' => (c >.? o) :: greater h_c' h_o'
  | _, _ => []
  end.

(** [np.logical_and] of two arrays of the same length. *)
Fixpoint logical_and (p q : list bool) : list bool :=
  match p, q with
  | a :: p', b :: q' => (a && b) :: logical_and p' q'
  | _, _ => []
  end.

(** [np.argwhere(p)] reshaped to one dimension: the positions holding
    [True], ascending.  [i0] is the position of the head of [p]. *)
Fixpoint argwhere_from (i0 : nat) (p : list bool) : list nat :=
  match p with
  | [] => []
  | b :: p' =>
      if b then i0 :: argwhere_from (S i0) p' else argwhere_from (S i0) p'
  end.

Definition argwhere (p : list bool) : list nat := argwhere_from 0 p.

(** [a[ind]] for an index array [ind] whose entries are positions of [a]. *)
Definition take (a : list float) (ind : list nat) : list float :=
  map (fun i => nth i a 0%float) ind.

End Np.

(** ** The peak finder *)

(** The array [x] that [findpeaks] builds: [data] with [spacing] more cells
    at each end, holding the first, respectively the last, value of [data]
    less [1e-6] (the source writes [1.e-6]). *)
Definition findpeaks_x (data : list float) (d0 : float) (spacing : nat)
  : list float :=
  let len := length data in
  let x := Np.zeros (len + 2 * spacing) in
  let x := Np.fill_prefix spacing (d0 - 1e-6)%float x in
  let x := Np.fill_suffix spacing (last data 0 - 1e-6)%float x in
  Np.assign spacing data x.

(** One turn of the loop [for s in range(spacing)]. *)
Definition findpeaks_step (x : list float) (spacing len : nat)
  (peak_candidate : list bool) (s : nat) : list bool :=
  let h_b := Np.slice x (spacing - s - 1) len in
  let h_c := Np.slice x spacing len in
  let h_a := Np.slice x (spacing + s + 1) len in
  Np.logical_and peak_candidate
    (Np.logical_and (Np.greater h_c h_b) (Np.greater h_c h_a)).

(** [findpeaks(data, spacing, limit)].  [data[0]] raises [IndexError] on an
    empty array. *)
Definition findpeaks (data : list float) (spacing : nat)
  (limit : option float) : option (list nat) :=
  match data with
  | [] => None
  | d0 :: _ =>
      let len := length data in
      let x := findpeaks_x data d0 spacing in
      let peak_candidate :=
        fold_left (findpeaks_step x spacing len) (seq 0 spacing)
                  (repeat true len) in
      let ind := Np.argwhere peak_candidate in
      Some match limit with
           | None => ind
           | Some l => filter (fun i => nth i data 0%float >.? l) ind
           end
  end.

(** ** The sample window: [collections.deque] with a maximal length *)

Record deque : Type := mkDeque {
  items : list float;
  maxlen : nat
}.

(** [deque.append]: when the deque is full the leftmost item is dropped. *)
Definition deque_append (q : deque) (v : float) : deque :=
  match maxlen q with
  | O => q
  | S _ =>
      if length (items q) <? maxlen q
      then mkDeque (items q ++ [v]) (maxlen q)
      else mkDeque (tl (items q) ++ [v]) (maxlen q)
  end.

(** ** The detector object *)

Record QRSDetector : Type := mkQRSDetector {
  signal_freq_samples_per_sec : float;
  number_of_samples_stored : Z;
  filter_lowcut : float;
  filter_highcut : float;
  filter_order : Z;
  integration_window : nat;
  findpeaks_limit : float;
  findpeaks_spacing : nat;
  refractory_period : Z;
  detection_window : Z;
  signal_peak_filtering_factor : float;
  noise_peak_filtering_factor : float;
  signal_noise_diff_weight : float;
  most_recent_measurements : deque;
  time_since_last_detected_qrs : Z;
  signal_peak_value : float;
  noise_peak_value : float;
  threshold_value : float
}.

(** Assignments to the five attributes that change after construction. *)
Definition set_most_recent_measurements (q : deque) (d : QRSDetector) :=
  mkQRSDetector (signal_freq_samples_per_sec d) (number_of_samples_stored d)
    (filter_lowcut d) (filter_highcut d) (filter_order d)
    (integration_window d) (findpeaks_limit d) (findpeaks_spacing d)
    (refractory_period d) (detection_window d)
    (signal_peak_filtering_factor d) (noise_peak_filtering_factor d)
    (signal_noise_diff_weight d)
    q (time_since_last_detected_qrs d)
    (signal_peak_value d) (noise_peak_value d) (threshold_value d).

Definition set_time_since_last_detected_qrs (t : Z) (d : QRSDetector) :=
  mkQRSDetector (signal_freq_samples_per_sec d) (number_of_samples_stored d)
    (filter_lowcut d) (filter_highcut d) (filter_order d)
    (integration_window d) (findpeaks_limit d) (findpeaks_spacing d)
    (refractory_period d) (detection_window d)
    (signal_peak_filtering_factor d) (noise_peak_filtering_factor d)
    (signal_noise_diff_weight d)
    (most_recent_measurements d) t
    (signal_peak_value d) (noise_peak_value d) (threshold_value d).

Definition set_signal_peak_value (v : float) (d : QRSDetector) :=
  mkQRSDetector (signal_freq_samples_per_sec d) (number_of_samples_stored d)
    (filter_lowcut d) (filter_highcut d) (filter_order d)
    (integration_window d) (findpeaks_limit d) (findpeaks_spacing d)
    (refractory_period d) (detection_window d)
    (signal_peak_filtering_factor d) (noise_peak_filtering_factor d)
    (signal_noise_diff_weight d)
    (most_recent_measurements d) (time_since_last_detected_qrs d)
    v (noise_peak_value d) (threshold_value d).

Definition set_noise_peak_value (v : float) (d : QRSDetector) :=
  mkQRSDetector (signal_freq_samples_per_sec d) (number_of_samples_stored d)
    (filter_lowcut d) (filter_highcut d) (filter_order d)
    (integration_window d) (findpeaks_limit d) (findpeaks_spacing d)
    (refractory_period d) (detection_window d)
    (signal_peak_filtering_factor d) (noise_peak_filtering_factor d)
    (signal_noise_diff_weight d)
    (most_recent_measurements d) (time_since_last_detected_qrs d)
    (signal_peak_value d) v (threshold_value d).

Definition set_threshold_value (v : float) (d : QRSDetector) :=
  mkQRSDetector (signal_freq_samples_per_sec d) (number_of_samples_stored d)
    (filter_lowcut d) (filter_highcut d) (filter_order d)
    (integration_window d) (findpeaks_limit d) (findpeaks_spacing d)
    (refractory_period d) (detection_window d)
    (signal_peak_filtering_factor d) (noise_peak_filtering_factor d)
    (signal_noise_diff_weight d)
    (most_recent_measurements d) (time_since_last_detected_qrs d)
    (signal_peak_value d) (noise_peak_value d) v.

(** The attribute values that [__init__] sets before it starts reading. *)
Definition QRSDetector_init (signal_freq : float) : QRSDetector :=
  {| signal_freq_samples_per_sec := signal_freq;
     number_of_samples_stored := 200;
     filter_lowcut := 0.0;
     filter_highcut := 15.0;
     filter_order := 1;
     integration_window := 15;
     findpeaks_limit := 0.40;
     findpeaks_spacing := 50;
     refractory_period := 120;
     detection_window := 40;
     signal_peak_filtering_factor := 0.125;
     noise_peak_filtering_factor := 0.125;
     signal_noise_diff_weight := 0.25;
     most_recent_measurements := mkDeque [0%float] 200;
     time_since_last_detected_qrs := 0;
     signal_peak_value := 0.0;
     noise_peak_value := 0.0;
     threshold_value := 0.0 |}.

(** ** Thresholding: [detect_qrs] *)

(** What one call of [detect_qrs] did with the peaks it was given. *)
Inductive decision : Type :=
| NoDecision   (* refractory, or no peak in the analysed window *)
| SignalPeak   (* [handle_detection] was called: "Pulse" is printed *)
| NoisePeak.

Definition detect_qrs (self : QRSDetector)
  (detected_peaks_indices : list nat) (detected_peaks_values : list float)
  : QRSDetector * decision :=
  let self :=
    set_time_since_last_detected_qrs
      (time_since_last_detected_qrs self + 1) self in
  if (time_since_last_detected_qrs self >? refractory_period self)%Z then
    if (0 <? length detected_peaks_indices)%nat then
      let most_recent_peak_value := last detected_peaks_values 0%float in
      let '(self, dec) :=
        if most_recent_peak_value >.? threshold_value self then
          let self := set_time_since_last_detected_qrs 0 self in
          (set_signal_peak_value
             (signal_peak_filtering_factor self * most_recent_peak_value
              + (1 - signal_peak_filtering_factor self)
                * signal_peak_value self)%float self,
           SignalPeak)
        else
          (set_noise_peak_value
             (noise_peak_filtering_factor self * most_recent_peak_value
              + (1 - noise_peak_filtering_factor self)
                * noise_peak_value self)%float self,
           NoisePeak) in
      (set_threshold_value
         (noise_peak_value self
          + signal_noise_diff_weight self
            * (signal_peak_value self - noise_peak_value self))%float self,
       dec)
    else (self, NoDecision)
  else (self, NoDecision).

(** ** The signal pipeline *)

(** A line read from the serial port, after [decode], [rstrip], [split(';')]
    and the two [float] conversions of [process_measurement]: either the line
    does not have two fields that read as numbers, or it gives a timestamp
    and a measurement. *)
Inductive raw_measurement : Type :=
| Unparsable
| Parsed (timestamp measurement : float).

(** What [process_measurement] did with a line. *)
Inductive outcome : Type :=
| Dropped                    (* returned before touching the window *)
| Processed (d : decision)   (* appended, one pipeline pass completed *)
| Raised.                    (* appended, the pipeline pass raised *)

(** The arrays of one pass of [extract_peaks], by the names of its locals;
    [found_peaks] is what [findpeaks] returned, before the restriction to the
    detection window. *)
Record stages : Type := mkStages {
  filtered_signal : list float;
  differentiated_signal : list float;
  squared_signal : list float;
  integrated_signal : list float;
  found_peaks : list nat;
  detected_peaks_indices : list nat;
  detected_peaks_values : list float
}.

Section Pipeline.

(** scipy's filter design and filtering routines are external.
    [butter N low high] stands for [butter(N, [low, high], btype="band")]:
    the coefficient arrays [(b, a)], or [None] when scipy raises (recent
    versions reject critical frequencies outside the open interval (0, 1)).
    [lfilter b a data] stands for [lfilter(b, a, data)]. *)
Variable butter : Z -> float -> float -> option (list float * list float).
Variable lfilter : list float -> list float -> list float -> list float.

(** [bandpass_filter].  A Python float division by zero raises
    [ZeroDivisionError]. *)
Definition bandpass_filter (data : list float)
  (lowcut highcut signal_freq : float) (order : Z) : option (list float) :=
  let nyquist_freq := (0.5 * signal_freq)%float in
  if (nyquist_freq =? 0)%float then None
  else
    let low := (lowcut / nyquist_freq)%float in
    let high := (highcut / nyquist_freq)%float in
    match butter order low high with
    | None => None
    | Some (b, a) => Some (lfilter b a data)
    end.

(** The body of [extract_peaks] up to the call of [detect_qrs]. *)
Definition signal_stages (self : QRSDetector) : option stages :=
  match bandpass_filter (items (most_recent_measurements self))
          (filter_lowcut self) (filter_highcut self)
          (signal_freq_samples_per_sec self) (filter_order self) with
  | None => None
  | Some filtered =>
      let differentiated := Np.ediff1d filtered in
      let squared := Np.square differentiated in
      match Np.convolve squared (Np.ones (integration_window self)) with
      | None => None
      | Some integrated =>
          match findpeaks integrated (findpeaks_spacing self)
                  (Some (findpeaks_limit self)) with
          | None => None
          | Some peaks =>
              let indices :=
                filter (fun i => (Z.of_nat i >?
                          number_of_samples_stored self
                          - detection_window self)%Z) peaks in
              Some (mkStages filtered differentiated squared integrated
                      peaks indices (Np.take integrated indices))
          end
      end
  end.

Definition extract_peaks (self : QRSDetector)
  : option (QRSDetector * decision) :=
  match signal_stages self with
  | None => None
  | Some s =>
      Some (detect_qrs self (detected_peaks_indices s)
              (detected_peaks_values s))
  end.

Definition process_measurement (self : QRSDetector)
  (raw : raw_measurement) : QRSDetector * outcome :=
  match raw with
  | Unparsable => (self, Dropped)
  | Parsed timestamp measurement =>
      if measurement >.? 10 then (self, Dropped)
      else
        let self :=
          set_most_recent_measurements
            (deque_append (most_recent_measurements self) measurement)
            self in
        match extract_peaks self with
        | None => (self, Raised)
        | Some (self', d) => (self', Processed d)
        end
  end.

(** The reading loop of [connect_to_ecg] over the lines the port delivers;
    an exception leaves the loop and ends the program. *)
Fixpoint read_loop (self : QRSDetector) (lines : list raw_measurement)
  : QRSDetector * list outcome :=
  match lines with
  | [] => (self, [])
  | raw :: rest =>
      let (self', o) := process_measurement self raw in
      match o with
      | Raised => (self', [Raised])
      | _ => let (self'', os) := read_loop self' rest in (self'', o :: os)
      end
  end.

(** [QRSDetector(port, baud_rate, signal_freq)] with a port that opens and
    then delivers [lines]. *)
Definition QRSDetector_run (signal_freq : float)
  (lines : list raw_measurement) : QRSDetector * list outcome :=
  read_loop (QRSDetector_init signal_freq) lines.

End Pipeline.

(** The decisions of the completed pipeline passes of a run, one for each
    sample that went through [detect_qrs], in order. *)
Fixpoint decisions (os : list outcome) : list decision :=
  match os with
  | [] => []
  | Processed d :: os' => d :: decisions os'
  | _ :: os' => decisions os'
  end.

(** ** Sample instances of the external routines *)

(** The difference equation that [lfilter] documents,
    [a[0]*y[n] = b[0]*x[n] + b[1]*x[n-1] + ... - a[1]*y[n-1] - ...];
    [xs] and [ys] hold the past inputs and outputs, newest first. *)
Fixpoint dot (c p : list float) : float :=
  match c, p with
  | c0 :: c', p0 :: p' => (c0 * p0 + dot c' p')%float
  | _, _ => 0%float
  end.

Fixpoint lfilter_from (b a xs ys data : list float) : list float :=
  match data with
  | [] => []
  | x :: data' =>
      let y := ((dot b (x :: xs) - dot (tl a) ys) / hd 1 a)%float in
      y :: lfilter_from b a (x :: xs) (y :: ys) data'
  end.

Definition lfilter_direct (b a data : list float) : list float :=
  lfilter_from b a [] [] data.

(** A filter design that returns the pass-through filter [b = a = [1.0]]
    whatever the band. *)
Definition butter_unit (N : Z) (low high : float)
  : option (list float * list float) :=
  Some ([1%float], [1%float]).

(** A filter design with the check of recent scipy versions: both critical
    frequencies must lie strictly between 0 and 1. *)
Definition butter_checked (N : Z) (low high : float)
  : option (list float * list float) :=
  if (0 <? low)%float && (low <? 1)%float
     && (0 <? high)%float && (high <? 1)%float
  then Some ([1%float], [1%float]) else None.

(** ** A sample recording *)

(** A synthetic recording with one pulse: the differences between
    consecutive samples alternate in sign and grow linearly to 15/8 at
    position 160, then shrink again; they are 0 more than 14 positions
    away from it. *)
Definition pulse_difference (j : nat) : float :=
  let height := (15 - (Z.max (Z.of_nat j - 160) (160 - Z.of_nat j)))%Z in
  if (height <=? 0)%Z then 0%float
  else
    let magnitude := (PrimFloat.of_uint63 (Uint63.of_Z height) / 8)%float in
    if Nat.even j then magnitude else (- magnitude)%float.

(** The samples after the seed value 0: the running sums of the
    differences. *)
Fixpoint running_sums (start : float) (ds : list float) : list float :=
  match ds with
  | [] => []
  | d :: ds' => (start + d)%float :: running_sums (start + d)%float ds'
  end.

Definition pulse_samples : list float :=
  running_sums 0 (map pulse_difference (seq 0 199)).

Definition pulse_lines : list raw_measurement :=
  map (Parsed 0) pulse_samples.

(** A detector at the call of [extract_peaks] for line [n] of the recording
    (counting from 0): the window holds the seed and the samples up to
    sample [n], [n] lines have been counted, and the levels are still 0.0,
    as they are as long as no pass has made a decision. *)
Definition pulse_pass (n : nat) : QRSDetector :=
  set_time_since_last_detected_qrs (Z.of_nat n)
    (set_most_recent_measurements
       (mkDeque (0%float :: firstn (S n) pulse_samples) 200)
       (QRSDetector_init 255)).

(** The detector that a fresh one becomes by reading the first [n] lines of
    the recording with the pass-through filter and appending sample [n]. *)
Definition pulse_pass_of_run (n : nat) : QRSDetector :=
  let self :=
    fst (QRSDetector_run butter_unit lfilter_direct 255
           (firstn n pulse_lines)) in
  set_most_recent_measurements
    (deque_append (most_recent_measurements self)
       (nth n pulse_samples 0%float))
    self.

(** The arrays of the pass that starts from [pulse_pass n]. *)
Definition pulse_stages (n : nat) : stages :=
  match signal_stages butter_unit lfilter_direct (pulse_pass n) with
  | Some s => s
  | None => mkStages [] [] [] [] [] [] []
  end.

(** ** The peak condition in the specification's words *)

(** The signal padded, virtually, at both ends: positions before the first
    sample hold the first value less [1e-6], positions after the last sample
    hold the last value less [1e-6]. *)
Definition padded (data : list float) (j : Z) : float :=
  if (j <? 0)%Z then (hd 0 data - 1e-6)%float
  else if (j <? Z.of_nat (length data))%Z then nth (Z.to_nat j) data 0%float
  else (last data 0 - 1e-6)%float.

(** Position [i] is strictly greater than every padded neighbour at an
    offset between 1 and [spacing], on both sides. *)
Definition is_peak (data : list float) (spacing i : nat) : Prop :=
  forall d : nat, 1 <= d <= spacing ->
    (padded data (Z.of_nat i) >.? padded data (Z.of_nat i - Z.of_nat d))
    = true
    /\ (padded data (Z.of_nat i) >.? padded data (Z.of_nat i + Z.of_nat d))
       = true.

(** The same condition as a test, offset by offset as the loop finds it. *)
Definition peak_test (data : list float) (i t : nat) : bool :=
  (padded data (Z.of_nat i) >.? padded data (Z.of_nat i - Z.of_nat (S t)))
  && (padded data (Z.of_nat i) >.? padded data (Z.of_nat i + Z.of_nat (S t))).

(** ** Conditions in the specification's words *)

(** The sample value lies outside the physiological ceiling: its magnitude
    exceeds 10. *)
Definition outside_ceiling (value : float) : bool :=
  PrimFloat.abs value >.? 10.


(** The positions [i] of the squared signal that the moving sum adds up at
    output position [k]: those with [k - i] between 0 and [W - 1], among
    the [n] valid positions, ascending. *)
Definition summed_positions (n W k : nat) : list nat :=
  filter (fun i => k - i <? W) (seq 0 (Nat.min (S k) n)).

(** Both cutoffs lie strictly between 0 and the Nyquist frequency, the low
    one strictly below the high one. *)
Definition cutoffs_valid (d : QRSDetector) : bool :=
  let nyquist := (0.5 * signal_freq_samples_per_sec d)%float in
  (0 <? filter_lowcut d)%float && (filter_lowcut d <? nyquist)%float
  && (0 <? filter_highcut d)%float && (filter_highcut d <? nyquist)%float
  && (filter_lowcut d <? filter_highcut d)%float.

(** ** Predicates on detector states *)

(** The configuration attributes, which no method assigns after
    [__init__]. *)
Definition parameters (d : QRSDetector) :=
  (number_of_samples_stored d, filter_lowcut d, filter_highcut d,
   filter_order d, integration_window d, findpeaks_limit d,
   findpeaks_spacing d, refractory_period d, detection_window d,
   signal_peak_filtering_factor d, noise_peak_filtering_factor d,
   signal_noise_diff_weight d).

(** The configuration is the one [__init__] sets. *)
Definition default_parameters (d : QRSDetector) : Prop :=
  parameters d = parameters (QRSDetector_init 0).

(** The sample window holds at least one and at most 200 values, and its
    capacity is 200. *)
Definition window_ok (d : QRSDetector) : Prop :=
  maxlen (most_recent_measurements d) = 200
  /\ 1 <= length (items (most_recent_measurements d)) <= 200.

(** The state after the first statement of [detect_qrs], the increment of
    the counter. *)
Definition tick (d : QRSDetector) : QRSDetector :=
  set_time_since_last_detected_qrs (time_since_last_detected_qrs d + 1) d.

(** ** Reading a line *)

(** The text of a line as [decode] returns it: its Unicode code points. *)
Definition text : Type := list N.

(** The code points for which [str.isspace] holds; [rstrip] removes them
    from the end of a string. *)
Definition isspace (c : N) : bool :=
  ((9 <=? c) && (c <=? 13) || (28 <=? c) && (c <=? 32) || (c =? 133)
   || (c =? 160) || (c =? 5760) || (8192 <=? c) && (c <=? 8202)
   || (c =? 8232) || (c =? 8233) || (c =? 8239) || (c =? 8287)
   || (c =? 12288))%N.

(** [s.rstrip()]. *)
Fixpoint rstrip (s : text) : text :=
  match s with
  | [] => []
  | c :: r =>
      match rstrip r with
      | [] => if isspace c then [] else [c]
      | r' => c :: r'
      end
  end.

(** [s.split(sep)] for a separator of one character: the fields between
    the separators, at least one. *)
Fixpoint split (sep : N) (s : text) : list text :=
  match s with
  | [] => [[]]
  | c :: r =>
      if (c =? sep)%N then [] :: split sep r
      else match split sep r with
           | field :: fields => (c :: field) :: fields
           | [] => [[c]]
           end
  end.

(** [sep.join(fields)]. *)
Fixpoint join (sep : N) (fields : list text) : text :=
  match fields with
  | [] => []
  | [field] => field
  | field :: fields' => field ++ sep :: join sep fields'
  end.

(** The character [';']. *)
Definition semicolon : N := 59.

Section Reading.

(** Python's [float] applied to a string: the number read, or [None] when
    it raises [ValueError]. *)
Variable to_float : text -> option float.

(** The first statements of [process_measurement], up to the end of the
    [try] block: what the line gives. *)
Definition parse_line (decoded : text) : raw_measurement :=
  match split semicolon (rstrip decoded) with
  | [field0; field1] =>
      match to_float field0 with
      | None => Unparsable
      | Some timestamp =>
          match to_float field1 with
          | None => Unparsable
          | Some measurement => Parsed timestamp measurement
          end
      end
  | _ => Unparsable
  end.

End Reading.

(** ** Traces *)

(** The number of times [handle_detection] was called. *)
Fixpoint count_detections (ds : list decision) : nat :=
  match ds with
  | [] => 0
  | SignalPeak :: ds' => S (count_detections ds')
  | _ :: ds' => count_detections ds'
  end.

(** The number of passes since the last detection, starting from [c] when
    there was none. *)
Fixpoint count_since (c : Z) (ds : list decision) : Z :=
  match ds with
  | [] => c
  | SignalPeak :: ds' => count_since 0 ds'
  | _ :: ds' => count_since (c + 1) ds'
  end.

(** The line is dropped by [process_measurement] before it touches the
    window. *)
Definition is_dropped (raw : raw_measurement) : bool :=
  match raw with
  | Unparsable => true
  | Parsed _ measurement => measurement >.? 10
  end.

(** The measurements of the lines that are not dropped, in order. *)
Fixpoint accepted_samples (lines : list raw_measurement) : list float :=
  match lines with
  | [] => []
  | Unparsable :: rest => accepted_samples rest
  | Parsed _ measurement :: rest =>
      if measurement >.? 10 then accepted_samples rest
      else measurement :: accepted_samples rest
  end.

(** The last [n] entries of a list. *)
Definition last_n {A : Type} (n : nat) (l : list A) : list A :=
  skipn (length l - n) l.

(** Two lines give the same measurement, whatever their timestamps. *)
Definition same_measurement (raw1 raw2 : raw_measurement) : Prop :=
  match raw1, raw2 with
  | Unparsable, Unparsable => True
  | Parsed _ m1, Parsed _ m2 => m1 = m2
  | _, _ => False
  end.

(** * Properties *)

(** ** Arrays *)

Lemma slice_nth (x : list float) (start len i : nat) :
  i < len -> nth i (Np.slice x start len) 0%float = nth (start + i) x 0%float.
Proof.
  intros Hi. unfold Np.slice.
  rewrite nth_firstn.
  destruct (Nat.ltb_spec i len) as [_ | H]; [| lia].
  now rewrite nth_skipn.
Qed.

Lemma slice_length (x : list float) (start len : nat) :
  start + len <= length x -> length (Np.slice x start len) = len.
Proof.
  intros H. unfold Np.slice. rewrite length_firstn, length_skipn. lia.
Qed.

Lemma greater_length (a b : list float) :
  length (Np.greater a b) = Nat.min (length a) (length b).
Proof.
  revert b. induction a as [| c a IH]; intros [| o b]; simpl; auto.
Qed.

Lemma greater_nth (a b : list float) (i : nat) :
  i < length a -> i < length b ->
  nth i (Np.greater a b) false = (nth i a 0%float >.? nth i b 0%float).
Proof.
  revert b i. induction a as [| c a IH]; intros [| o b] [| i]; simpl;
    try lia; auto.
  intros Ha Hb. apply IH; lia.
Qed.

Lemma logical_and_length (p q : list bool) :
  length (Np.logical_and p q) = Nat.min (length p) (length q).
Proof.
  revert q. induction p as [| a p IH]; intros [| b q]; simpl; auto.
Qed.

Lemma logical_and_nth (p q : list bool) (i : nat) :
  i < length p -> i < length q ->
  nth i (Np.logical_and p q) false = nth i p false && nth i q false.
Proof.
  revert q i. induction p as [| a p IH]; intros [| b q] [| i]; simpl;
    try lia; auto.
  intros Hp Hq. apply IH; lia.
Qed.

Lemma argwhere_from_In (p : list bool) (i0 i : nat) :
  In i (Np.argwhere_from i0 p) <->
  i0 <= i /\ i - i0 < length p /\ nth (i - i0) p false = true.
Proof.
  revert i0. induction p as [| b p IH]; intros i0; simpl.
  - split; [tauto | lia].
  - assert (Hstep : In i (Np.argwhere_from (S i0) p) <->
                    S i0 <= i /\ i - S i0 < length p
                    /\ nth (i - S i0) p false = true) by apply IH.
    destruct (Nat.eq_dec i i0) as [-> | Hne].
    + rewrite Nat.sub_diag. destruct b; simpl.
      * split; [intros _; repeat split; auto; lia | auto].
      * rewrite Hstep. split; [lia | intros (_ & _ & H); discriminate].
    + assert (Hin : In i (if b then i0 :: Np.argwhere_from (S i0) p
                          else Np.argwhere_from (S i0) p)
                    <-> In i (Np.argwhere_from (S i0) p)).
      { destruct b; simpl; [| tauto]. split; [intros [H | H] |]; auto.
        congruence. }
      rewrite Hin, Hstep.
      destruct (Nat.le_gt_cases i i0) as [Hle | Hgt].
      * split; lia.
      * replace (i - i0) with (S (i - S i0)) by lia. simpl.
        split; intros (H1 & H2 & H3); repeat split; auto; lia.
Qed.

Lemma argwhere_from_sorted (p : list bool) (i0 : nat) :
  StronglySorted lt (Np.argwhere_from i0 p).
Proof.
  revert i0. induction p as [| b p IH]; intros i0; simpl.
  - constructor.
  - destruct b; [| apply IH]. constructor; [apply IH |].
    apply Forall_forall. intros j Hj. apply argwhere_from_In in Hj. lia.
Qed.

Lemma filter_sorted (f : nat -> bool) (l : list nat) :
  StronglySorted lt l -> StronglySorted lt (filter f l).
Proof.
  induction 1 as [| a l Hs IH Hall]; simpl; [constructor |].
  destruct (f a); auto. constructor; auto.
  apply Forall_forall. intros j Hj. apply filter_In in Hj.
  rewrite Forall_forall in Hall. apply Hall, Hj.
Qed.

(** ** The peak finder *)

(** The array [x] is the data between [spacing] copies of each boundary
    value less [1e-6]. *)
Lemma findpeaks_x_shape (data : list float) (d0 : float) (spacing : nat) :
  findpeaks_x data d0 spacing
  = repeat (d0 - 1e-6)%float spacing ++ data
    ++ repeat (last data 0 - 1e-6)%float spacing.
Proof.
  unfold findpeaks_x, Np.assign, Np.fill_suffix, Np.fill_prefix, Np.zeros.
  destruct spacing as [| s].
  - simpl. rewrite Nat.add_0_r, repeat_length.
    now rewrite skipn_all2 by (rewrite repeat_length; lia).
  - set (n := S s). assert (Hn : n <> 0) by (unfold n; lia).
    destruct (Nat.eqb_spec n 0) as [H0 | _]; [contradiction |].
    set (c0 := (d0 - 1e-6)%float). set (cl := (last data 0 - 1e-6)%float).
    set (len := length data).
    rewrite repeat_length.
    replace (Nat.min n (len + 2 * n)) with n by lia.
    assert (Hskip : skipn n (repeat 0%float (len + 2 * n))
                    = repeat 0%float (len + n)).
    { replace (len + 2 * n) with (n + (len + n)) by lia.
      rewrite repeat_app, skipn_app, repeat_length, Nat.sub_diag.
      rewrite skipn_all2 by (rewrite repeat_length; lia). reflexivity. }
    rewrite Hskip.
    rewrite length_app, !repeat_length.
    replace (n + (len + n) - n) with (n + len) by lia.
    replace (Nat.min n (n + (len + n))) with n by lia.
    assert (Hpre : firstn (n + len) (repeat c0 n ++ repeat 0%float (len + n))
                   = repeat c0 n ++ repeat 0%float len).
    { rewrite firstn_app, repeat_length.
      rewrite firstn_all2 by (rewrite repeat_length; lia).
      replace (n + len - n) with len by lia.
      replace (len + n) with (len + n)%nat by reflexivity.
      rewrite repeat_app, firstn_app, repeat_length, Nat.sub_diag.
      rewrite firstn_all2 by (rewrite repeat_length; lia).
      simpl. now rewrite app_nil_r. }
    rewrite Hpre.
    rewrite firstn_app, length_app, !repeat_length.
    rewrite firstn_app, repeat_length, Nat.sub_diag.
    rewrite (firstn_all2 (n := n) (repeat c0 n))
      by (rewrite repeat_length; lia).
    replace (n - (n + len)) with 0 by lia. simpl firstn at 1 2.
    rewrite !app_nil_r.
    rewrite skipn_app, length_app, !repeat_length.
    rewrite (skipn_all2 (n := n + len))
      by (rewrite length_app, !repeat_length; lia).
    replace (n + len - (n + len)) with 0 by lia. reflexivity.
Qed.

Lemma findpeaks_x_length (data : list float) (d0 : float) (spacing : nat) :
  length (findpeaks_x data d0 spacing) = length data + 2 * spacing.
Proof.
  rewrite findpeaks_x_shape, !length_app, !repeat_length. lia.
Qed.

(** Cell [j] of [x] holds the padded signal at position [j - spacing]. *)
Lemma findpeaks_x_nth (d0 : float) (rest : list float) (spacing j : nat) :
  j < length (d0 :: rest) + 2 * spacing ->
  nth j (findpeaks_x (d0 :: rest) d0 spacing) 0%float
  = padded (d0 :: rest) (Z.of_nat j - Z.of_nat spacing).
Proof.
  intros Hj. rewrite findpeaks_x_shape. unfold padded.
  set (data := d0 :: rest) in *.
  destruct (Z.ltb_spec (Z.of_nat j - Z.of_nat spacing) 0) as [Hlo | Hlo].
  - rewrite app_nth1 by (rewrite repeat_length; lia).
    rewrite nth_repeat_lt by lia. reflexivity.
  - rewrite app_nth2 by (rewrite repeat_length; lia).
    rewrite repeat_length.
    destruct (Z.ltb_spec (Z.of_nat j - Z.of_nat spacing)
                (Z.of_nat (length data))) as [Hhi | Hhi].
    + rewrite app_nth1 by lia. f_equal. lia.
    + rewrite app_nth2 by lia.
      rewrite nth_repeat_lt by lia. reflexivity.
Qed.

(** One turn of the loop conjoins, at every position, the test for the
    offset [s + 1]. *)
Lemma findpeaks_step_spec (d0 : float) (rest : list float)
  (spacing s : nat) (pc : list bool) :
  let data := d0 :: rest in
  let pc' := findpeaks_step (findpeaks_x data d0 spacing) spacing
               (length data) pc s in
  s < spacing -> length pc = length data ->
  length pc' = length data
  /\ forall i, i < length data ->
       nth i pc' false = nth i pc false && peak_test data i s.
Proof.
  intros data pc' Hs Hpc. subst pc' data. unfold findpeaks_step.
  set (x := findpeaks_x (d0 :: rest) d0 spacing).
  set (len := length (d0 :: rest)) in *.
  assert (Hx : length x = len + 2 * spacing)
    by apply findpeaks_x_length.
  assert (Hb : length (Np.slice x (spacing - s - 1) len) = len)
    by (apply slice_length; lia).
  assert (Hc : length (Np.slice x spacing len) = len)
    by (apply slice_length; lia).
  assert (Ha : length (Np.slice x (spacing + s + 1) len) = len)
    by (apply slice_length; lia).
  split.
  - rewrite !logical_and_length, !greater_length. lia.
  - intros i Hi.
    rewrite logical_and_nth
      by (rewrite ?logical_and_length, ?greater_length; lia).
    rewrite logical_and_nth by (rewrite greater_length; lia).
    rewrite !greater_nth by lia.
    rewrite !slice_nth by lia.
    unfold x. rewrite !findpeaks_x_nth by (fold len; lia).
    unfold peak_test. f_equal. f_equal; f_equal; f_equal; lia.
Qed.

(** After the first [n] turns of the loop, [peak_candidate] holds at every
    position the conjunction of the tests for the offsets 1 to [n]. *)
Lemma findpeaks_loop_spec (d0 : float) (rest : list float)
  (spacing n : nat) :
  let data := d0 :: rest in
  let pc := fold_left
              (findpeaks_step (findpeaks_x data d0 spacing) spacing
                 (length data))
              (seq 0 n) (repeat true (length data)) in
  n <= spacing ->
  length pc = length data
  /\ forall i, i < length data ->
       nth i pc false = forallb (peak_test data i) (seq 0 n).
Proof.
  intros data. subst data. set (len := length (d0 :: rest)).
  induction n as [| n IH]; intros pc Hn; subst pc.
  - cbn [seq fold_left forallb]. split; [apply repeat_length |].
    intros i Hi. now rewrite nth_repeat_lt.
  - rewrite seq_S, fold_left_app. cbn [fold_left Nat.add].
    destruct IH as [Hlen Hnth]; [lia |].
    destruct (findpeaks_step_spec d0 rest spacing n _ ltac:(lia) Hlen)
      as [Hlen' Hnth'].
    fold len in Hlen', Hnth'. split; [exact Hlen' |].
    intros i Hi. rewrite (Hnth' i Hi), (Hnth i Hi).
    rewrite forallb_app. cbn [forallb]. now rewrite andb_true_r.
Qed.

(** The loop's test, taken over all offsets, is the specification's peak
    condition. *)
Lemma peak_test_is_peak (data : list float) (spacing i : nat) :
  forallb (peak_test data i) (seq 0 spacing) = true <-> is_peak data spacing i.
Proof.
  rewrite forallb_forall. unfold is_peak, peak_test. split.
  - intros H d Hd. destruct d as [| t]; [lia |].
    specialize (H t). rewrite in_seq in H.
    apply andb_true_iff. apply H. lia.
  - intros H t Ht. apply in_seq in Ht.
    apply andb_true_iff. apply (H (S t)). lia.
Qed.

(** What [findpeaks] returns for a non-empty array. *)
Lemma findpeaks_spec (data : list float) (spacing : nat)
  (limit : option float) :
  data <> [] ->
  exists ind, findpeaks data spacing limit = Some ind
    /\ StronglySorted lt ind
    /\ forall i, In i ind <->
         i < length data /\ is_peak data spacing i
         /\ match limit with
            | None => True
            | Some l => (nth i data 0%float >.? l) = true
            end.
Proof.
  intros Hne. destruct data as [| d0 rest]; [contradiction |].
  unfold findpeaks.
  destruct (findpeaks_loop_spec d0 rest spacing spacing (le_n _))
    as [Hlen Hnth].
  set (pc := fold_left _ _ _) in *.
  assert (Hin : forall i, In i (Np.argwhere pc) <->
                  i < length (d0 :: rest) /\ is_peak (d0 :: rest) spacing i).
  { intros i. unfold Np.argwhere. rewrite argwhere_from_In, Nat.sub_0_r.
    rewrite Hlen. split.
    - intros (_ & Hi & Ht). split; [exact Hi |].
      apply peak_test_is_peak. now rewrite <- (Hnth i Hi).
    - intros (Hi & Hp). repeat split; [lia | exact Hi |].
      rewrite (Hnth i Hi). now apply peak_test_is_peak. }
  assert (Hsorted : StronglySorted lt (Np.argwhere pc))
    by apply argwhere_from_sorted.
  destruct limit as [l |].
  - eexists. split; [reflexivity |]. split; [now apply filter_sorted |].
    intros i. rewrite filter_In, Hin. tauto.
  - eexists. split; [reflexivity |]. split; [exact Hsorted |].
    intros i. rewrite Hin. tauto.
Qed.

(** C4.  For a non-empty signal, a spacing of at least 1 and a limit,
    [findpeaks] returns, in strictly ascending order, exactly the positions
    whose value is strictly greater than the padded values at every offset
    from 1 to the spacing on both sides, and strictly greater than the
    limit. *)
Theorem findpeaks_strict_local_maxima (data : list float) (spacing : nat)
  (limit : float) :
  data <> [] -> 1 <= spacing ->
  exists ind, findpeaks data spacing (Some limit) = Some ind
    /\ StronglySorted lt ind
    /\ forall i, In i ind <->
         i < length data /\ is_peak data spacing i
         /\ (nth i data 0%float >.? limit) = true.
Proof.
  intros Hne _. exact (findpeaks_spec data spacing (Some limit) Hne).
Qed.

Lemma findpeaks_strict_local_maxima_witness :
  exists ind, findpeaks [1; 3; 2; 5; 4]%float 1 (Some 0.40%float) = Some ind
    /\ StronglySorted lt ind
    /\ forall i, In i ind <->
         i < length [1; 3; 2; 5; 4]%float
         /\ is_peak [1; 3; 2; 5; 4]%float 1 i
         /\ (nth i [1; 3; 2; 5; 4]%float 0%float >.? 0.40) = true.
Proof.
  apply (findpeaks_strict_local_maxima [1; 3; 2; 5; 4]%float 1 0.40%float);
    [discriminate | lia].
Defined.

(** ** The stages of a pass *)

Section PassFacts.

Variable butter : Z -> float -> float -> option (list float * list float).
Variable lfilter : list float -> list float -> list float -> list float.

(** The equations between the arrays of a completed pass. *)
Lemma signal_stages_inv (self : QRSDetector) (s : stages) :
  signal_stages butter lfilter self = Some s ->
  bandpass_filter butter lfilter (items (most_recent_measurements self))
    (filter_lowcut self) (filter_highcut self)
    (signal_freq_samples_per_sec self) (filter_order self)
  = Some (filtered_signal s)
  /\ differentiated_signal s = Np.ediff1d (filtered_signal s)
  /\ squared_signal s = Np.square (differentiated_signal s)
  /\ Np.convolve (squared_signal s) (Np.ones (integration_window self))
     = Some (integrated_signal s)
  /\ findpeaks (integrated_signal s) (findpeaks_spacing self)
       (Some (findpeaks_limit self)) = Some (found_peaks s)
  /\ detected_peaks_indices s
     = filter (fun i => (Z.of_nat i >?
                 number_of_samples_stored self - detection_window self)%Z)
         (found_peaks s)
  /\ detected_peaks_values s
     = Np.take (integrated_signal s) (detected_peaks_indices s).
Proof.
  unfold signal_stages. intros H.
  destruct (bandpass_filter _ _ _ _ _ _ _) as [filtered |];
    [| discriminate].
  destruct (Np.convolve _ _) as [integrated |] eqn:Hconv; [| discriminate].
  destruct (findpeaks _ _ _) as [peaks |] eqn:Hfind; [| discriminate].
  injection H as <-. simpl. repeat split; auto.
Qed.

End PassFacts.

(** ** Thresholding *)

Lemma convolve_nonempty (a v r : list float) :
  Np.convolve a v = Some r -> a <> [] /\ v <> [].
Proof.
  unfold Np.convolve.
  destruct (Nat.ltb_spec (length a) (length v)) as [Hlt | Hge].
  - destruct v as [| v0 v']; [simpl in Hlt; lia |].
    destruct a as [| a0 a']; [discriminate |]. split; discriminate.
  - destruct a as [| a0 a']; [discriminate |].
    destruct v as [| v0 v']; [discriminate |]. split; discriminate.
Qed.

(** The last entry of a non-empty ascending array is its largest. *)
Lemma sorted_last_max (l : list nat) (d : nat) :
  StronglySorted lt l -> l <> [] ->
  In (last l d) l /\ forall j, In j l -> j <= last l d.
Proof.
  induction 1 as [| a l Hs IH Hall]; intros Hne; [contradiction |].
  destruct l as [| b l'].
  - simpl. split; [auto |]. intros j [<- | []]. lia.
  - destruct IH as [Hin Hmax]; [discriminate |].
    change (last (a :: b :: l') d) with (last (b :: l') d).
    split; [now right |].
    intros j [<- | Hj]; [| now apply Hmax].
    rewrite Forall_forall in Hall. specialize (Hall _ Hin). lia.
Qed.

Lemma last_take (a : list float) (ind : list nat) (d : nat) :
  ind <> [] ->
  last (Np.take a ind) 0%float = nth (last ind d) a 0%float.
Proof.
  unfold Np.take. induction ind as [| i ind IH]; intros Hne;
    [contradiction |].
  destruct ind as [| i' ind']; [reflexivity |].
  change (last (map _ (i :: i' :: ind')) 0%float)
    with (last (map (fun i => nth i a 0%float) (i' :: ind')) 0%float).
  change (last (i :: i' :: ind') d) with (last (i' :: ind') d).
  apply IH. discriminate.
Qed.

Lemma findpeaks_Some (data : list float) (spacing : nat)
  (limit : option float) (ind : list nat) :
  findpeaks data spacing limit = Some ind ->
  data <> []
  /\ StronglySorted lt ind
  /\ forall i, In i ind <->
       i < length data /\ is_peak data spacing i
       /\ match limit with
          | None => True
          | Some l => (nth i data 0%float >.? l) = true
          end.
Proof.
  intros H. assert (Hne : data <> []).
  { intros ->. discriminate. }
  destruct (findpeaks_spec data spacing limit Hne) as (ind' & Heq & Hs & Hi).
  rewrite Heq in H. injection H as <-. auto.
Qed.

Section Thresholding.

Variable butter : Z -> float -> float -> option (list float * list float).
Variable lfilter : list float -> list float -> list float -> list float.

(** The peaks handed to [detect_qrs] are in strictly ascending order, lie
    in the integrated signal and exceed the amplitude floor. *)
Lemma detected_peaks_facts (self : QRSDetector) (s : stages) :
  signal_stages butter lfilter self = Some s ->
  StronglySorted lt (detected_peaks_indices s)
  /\ forall i, In i (detected_peaks_indices s) ->
       i < length (integrated_signal s)
       /\ (nth i (integrated_signal s) 0%float >.? findpeaks_limit self)
          = true.
Proof.
  intros H. apply signal_stages_inv in H.
  destruct H as (_ & _ & _ & _ & Hfind & Hidx & _).
  apply findpeaks_Some in Hfind. destruct Hfind as (_ & Hs & Hin).
  rewrite Hidx. split; [now apply filter_sorted |].
  intros i Hi. apply filter_In in Hi. destruct Hi as [Hi _].
  apply Hin in Hi. tauto.
Qed.

(** C1.  In a pass whose incremented counter exceeds the refractory period
    and whose restricted candidate list is not empty, the candidate with
    the largest index is classified: a signal peak exactly when its value
    is strictly greater than the threshold (the counter is reset to 0 and
    the signal level becomes 0.125 * value + 0.875 * signal level), a noise
    peak otherwise (the noise level becomes 0.125 * value + 0.875 * noise
    level); then the threshold becomes noise + 0.25 * (signal - noise).
    The state is otherwise the one left by the increment of the counter. *)
Theorem eligible_pass_classifies_latest_peak
  (self : QRSDetector) (s : stages) :
  default_parameters self ->
  signal_stages butter lfilter self = Some s ->
  (time_since_last_detected_qrs (tick self)
   > refractory_period (tick self))%Z ->
  detected_peaks_indices s <> [] ->
  exists i : nat,
    In i (detected_peaks_indices s)
    /\ (forall j, In j (detected_peaks_indices s) -> j <= i)
    /\ let value := nth i (integrated_signal s) 0%float in
       extract_peaks butter lfilter self
       = Some
           (if value >.? threshold_value self then
              let signal :=
                (0.125 * value + 0.875 * signal_peak_value self)%float in
              (set_threshold_value
                 (noise_peak_value self
                  + 0.25 * (signal - noise_peak_value self))%float
                 (set_signal_peak_value signal
                    (set_time_since_last_detected_qrs 0 (tick self))),
               SignalPeak)
            else
              let noise :=
                (0.125 * value + 0.875 * noise_peak_value self)%float in
              (set_threshold_value
                 (noise + 0.25 * (signal_peak_value self - noise))%float
                 (set_noise_peak_value noise (tick self)),
               NoisePeak)).
Proof.
  intros Hpar Hs Hel Hne.
  destruct (detected_peaks_facts self s Hs) as [Hsorted _].
  destruct (sorted_last_max _ 0 Hsorted Hne) as [Hin Hmax].
  exists (last (detected_peaks_indices s) 0).
  split; [exact Hin |]. split; [exact Hmax |].
  unfold extract_peaks. rewrite Hs.
  pose proof (signal_stages_inv butter lfilter self s Hs)
    as (_ & _ & _ & _ & _ & _ & Hval).
  unfold detect_qrs. fold (tick self).
  rewrite Hval, <- (last_take _ _ 0 Hne).
  set (value := last (Np.take _ _) 0%float). clearbody value.
  assert (Hlen : (0 <? length (detected_peaks_indices s)) = true).
  { apply Nat.ltb_lt. destruct (detected_peaks_indices s);
      [contradiction | simpl; lia]. }
  rewrite Hlen.
  destruct (Z.gtb_spec (time_since_last_detected_qrs (tick self))
              (refractory_period (tick self))) as [_ | Hle]; [| lia].
  unfold default_parameters, parameters in Hpar.
  destruct self. cbn in Hpar.
  injection Hpar as -> -> -> -> -> -> -> -> -> -> -> ->.
  unfold tick. simpl.
  destruct (value >.? threshold_value0); reflexivity.
Qed.

End Thresholding.

Lemma eligible_pass_classifies_latest_peak_witness :
  exists i : nat,
    In i (detected_peaks_indices (pulse_stages 161))
    /\ (forall j, In j (detected_peaks_indices (pulse_stages 161)) -> j <= i)
    /\ let value := nth i (integrated_signal (pulse_stages 161)) 0%float in
       extract_peaks butter_unit lfilter_direct (pulse_pass 161)
       = Some
           (if value >.? threshold_value (pulse_pass 161) then
              let signal :=
                (0.125 * value
                 + 0.875 * signal_peak_value (pulse_pass 161))%float in
              (set_threshold_value
                 (noise_peak_value (pulse_pass 161)
                  + 0.25 * (signal - noise_peak_value (pulse_pass 161)))%float
                 (set_signal_peak_value signal
                    (set_time_since_last_detected_qrs 0
                       (tick (pulse_pass 161)))),
               SignalPeak)
            else
              let noise :=
                (0.125 * value
                 + 0.875 * noise_peak_value (pulse_pass 161))%float in
              (set_threshold_value
                 (noise
                  + 0.25 * (signal_peak_value (pulse_pass 161) - noise))%float
                 (set_noise_peak_value noise (tick (pulse_pass 161))),
               NoisePeak)).
Proof.
  apply (eligible_pass_classifies_latest_peak butter_unit lfilter_direct
           (pulse_pass 161) (pulse_stages 161)).
  - vm_compute. reflexivity.
  - vm_compute. reflexivity.
  - vm_compute. reflexivity.
  - vm_compute. discriminate.
Defined.

(** ** The counter and the refractory period *)

(** The three ways through [detect_qrs]. *)
Lemma detect_qrs_cases (self : QRSDetector) (indices : list nat)
  (values : list float) :
  let eligible :=
    (time_since_last_detected_qrs self + 1 >? refractory_period self)%Z
    && (0 <? length indices) in
  let value := last values 0%float in
  detect_qrs self indices values
  = if eligible then
      if value >.? threshold_value self then
        let signal :=
          (signal_peak_filtering_factor self * value
           + (1 - signal_peak_filtering_factor self)
             * signal_peak_value self)%float in
        (set_threshold_value
           (noise_peak_value self
            + signal_noise_diff_weight self
              * (signal - noise_peak_value self))%float
           (set_signal_peak_value signal
              (set_time_since_last_detected_qrs 0 (tick self))),
         SignalPeak)
      else
        let noise :=
          (noise_peak_filtering_factor self * value
           + (1 - noise_peak_filtering_factor self)
             * noise_peak_value self)%float in
        (set_threshold_value
           (noise
            + signal_noise_diff_weight self
              * (signal_peak_value self - noise))%float
           (set_noise_peak_value noise (tick self)),
         NoisePeak)
    else (tick self, NoDecision).
Proof.
  unfold detect_qrs, tick. destruct self. simpl.
  destruct (_ >? _)%Z; simpl; [| reflexivity].
  destruct (0 <? length indices); simpl; [| reflexivity].
  destruct (_ >.? _); reflexivity.
Qed.

(** [detect_qrs] leaves the configuration and the window alone, counts the
    sample, and calls [handle_detection] only when the incremented counter
    exceeds the refractory period; it then resets the counter. *)
Lemma detect_qrs_counter (self self' : QRSDetector) (indices : list nat)
  (values : list float) (d : decision) :
  detect_qrs self indices values = (self', d) ->
  parameters self' = parameters self
  /\ signal_freq_samples_per_sec self' = signal_freq_samples_per_sec self
  /\ most_recent_measurements self' = most_recent_measurements self
  /\ match d with
     | SignalPeak =>
         time_since_last_detected_qrs self' = 0%Z
         /\ (time_since_last_detected_qrs self + 1 > refractory_period self)%Z
     | _ =>
         time_since_last_detected_qrs self'
         = (time_since_last_detected_qrs self + 1)%Z
     end.
Proof.
  rewrite detect_qrs_cases. unfold tick. destruct self. simpl.
  destruct (Z.gtb_spec (time_since_last_detected_qrs0 + 1)
              refractory_period0) as [Hgt | Hle]; simpl.
  - destruct (0 <? length indices); simpl.
    + destruct (_ >.? _); intros [= <- <-]; simpl; repeat split; auto; lia.
    + intros [= <- <-]. simpl. repeat split; auto.
  - intros [= <- <-]. simpl. repeat split; auto.
Qed.

Section Run.

Variable butter : Z -> float -> float -> option (list float * list float).
Variable lfilter : list float -> list float -> list float -> list float.

(** The three ways through [process_measurement]. *)
Lemma process_measurement_cases (self self' : QRSDetector)
  (raw : raw_measurement) (o : outcome) :
  process_measurement butter lfilter self raw = (self', o) ->
  (o = Dropped /\ self' = self
   /\ (raw = Unparsable
       \/ exists t m, raw = Parsed t m /\ (m >.? 10) = true))
  \/ (exists t m, raw = Parsed t m /\ (m >.? 10) = false
      /\ let appended :=
           set_most_recent_measurements
             (deque_append (most_recent_measurements self) m) self in
         (o = Raised /\ self' = appended
          /\ extract_peaks butter lfilter appended = None)
         \/ (exists d, o = Processed d
             /\ extract_peaks butter lfilter appended = Some (self', d))).
Proof.
  unfold process_measurement. destruct raw as [| t m].
  - intros [= <- <-]. left. auto.
  - destruct (m >.? 10) eqn:Hm.
    + intros [= <- <-]. left. repeat split; auto. right. now exists t, m.
    + destruct (extract_peaks _ _ _) as [[s d] |] eqn:He.
      * intros [= <- <-]. right. exists t, m. repeat split; auto.
        right. now exists d.
      * intros [= <- <-]. right. exists t, m. repeat split; auto.
Qed.

(** A completed pass counts the sample exactly once; a detection needs the
    incremented counter to exceed the refractory period and resets it. *)
Lemma processed_counter (self self' : QRSDetector) (raw : raw_measurement)
  (d : decision) :
  process_measurement butter lfilter self raw = (self', Processed d) ->
  parameters self' = parameters self
  /\ match d with
     | SignalPeak =>
         time_since_last_detected_qrs self' = 0%Z
         /\ (time_since_last_detected_qrs self + 1 > refractory_period self)%Z
     | _ =>
         time_since_last_detected_qrs self'
         = (time_since_last_detected_qrs self + 1)%Z
     end.
Proof.
  intros H. apply process_measurement_cases in H.
  destruct H as [(Ho & _) | (t & m & _ & _ & [(Ho & _) | (d' & Ho & He)])];
    try discriminate.
  injection Ho as <-. unfold extract_peaks in He.
  destruct (signal_stages _ _ _) as [s |]; [| discriminate].
  injection He as He. apply detect_qrs_counter in He.
  destruct He as (Hp & _ & _ & Hc). split; [exact Hp |].
  destruct self; exact Hc.
Qed.

(** A line that is not processed leaves the configuration and the counter
    as they are. *)
Lemma unprocessed_counter (self self' : QRSDetector) (raw : raw_measurement)
  (o : outcome) :
  process_measurement butter lfilter self raw = (self', o) ->
  (forall d, o <> Processed d) ->
  parameters self' = parameters self
  /\ time_since_last_detected_qrs self' = time_since_last_detected_qrs self.
Proof.
  intros H Hno. apply process_measurement_cases in H.
  destruct H as [(_ & -> & _) | (t & m & _ & _ & [(_ & -> & _) | (d & -> & _)])].
  - auto.
  - destruct self; auto.
  - now destruct (Hno d).
Qed.

End Run.

Lemma parameters_refractory_period (a b : QRSDetector) :
  parameters a = parameters b -> refractory_period a = refractory_period b.
Proof. unfold parameters. now intros [= _ _ _ _ _ _ _ -> _ _ _ _]. Qed.

Section Trace.

Variable butter : Z -> float -> float -> option (list float * list float).
Variable lfilter : list float -> list float -> list float -> list float.

(** The decisions of a run, by the outcome of its first line. *)
Lemma decisions_read_loop (self : QRSDetector) (raw : raw_measurement)
  (rest : list raw_measurement) :
  decisions (snd (read_loop butter lfilter self (raw :: rest)))
  = match process_measurement butter lfilter self raw with
    | (self', Processed d) =>
        d :: decisions (snd (read_loop butter lfilter self' rest))
    | (self', Dropped) => decisions (snd (read_loop butter lfilter self' rest))
    | (_, Raised) => []
    end.
Proof.
  cbn [read_loop].
  destruct (process_measurement butter lfilter self raw) as [self' o].
  destruct o; [| | reflexivity];
    destruct (read_loop butter lfilter self' rest); reflexivity.
Qed.



End Trace.

(** ** The guard on the measurement *)

(** C3, as the specification states it, fails: a measurement of -10.0001
    lies outside the ceiling, and yet it is appended to the window and goes
    through a pass that increments the counter. *)
Lemma negative_overshoot_is_processed :
  outside_ceiling (-10.0001) = true
  /\ let r := process_measurement butter_unit lfilter_direct
                (QRSDetector_init 255) (Parsed 0 (-10.0001)) in
     snd r = Processed NoDecision
     /\ items (most_recent_measurements (fst r)) = [0; -10.0001]%float
     /\ time_since_last_detected_qrs (fst r) = 1%Z.
Proof. vm_compute. repeat split; reflexivity. Qed.

Section Guard.

Variable butter : Z -> float -> float -> option (list float * list float).
Variable lfilter : list float -> list float -> list float -> list float.

(** C3, amended.  A measurement strictly greater than 10 is dropped: the
    detector is left as it was, so the window is not mutated and no pass is
    run. *)
Theorem measurement_above_ceiling_dropped (self : QRSDetector)
  (timestamp measurement : float) :
  (measurement >.? 10) = true ->
  process_measurement butter lfilter self (Parsed timestamp measurement)
  = (self, Dropped).
Proof. intros H. unfold process_measurement. now rewrite H. Qed.


End Guard.

Lemma measurement_above_ceiling_dropped_witness :
  process_measurement butter_unit lfilter_direct (QRSDetector_init 255)
    (Parsed 0 10.0001)
  = (QRSDetector_init 255, Dropped).
Proof.
  apply (measurement_above_ceiling_dropped butter_unit lfilter_direct
           (QRSDetector_init 255) 0 10.0001).
  reflexivity.
Defined.



(** ** Derivative, square and integration *)

Lemma ediff1d_length (a : list float) :
  length (Np.ediff1d a) = length a - 1.
Proof.
  induction a as [| x [| y t] IH]; try reflexivity.
  change (Np.ediff1d (x :: y :: t))
    with ((y - x)%float :: Np.ediff1d (y :: t)).
  simpl length in *. lia.
Qed.

Lemma ediff1d_nth (a : list float) (i : nat) :
  i + 1 < length a ->
  nth i (Np.ediff1d a) 0%float
  = (nth (i + 1) a 0 - nth i a 0)%float.
Proof.
  revert i. induction a as [| x [| y t] IH]; intros i Hi;
    try (simpl in Hi; lia).
  change (Np.ediff1d (x :: y :: t))
    with ((y - x)%float :: Np.ediff1d (y :: t)).
  destruct i as [| i]; [reflexivity |].
  change (nth (S i) ((y - x)%float :: Np.ediff1d (y :: t)) 0%float)
    with (nth i (Np.ediff1d (y :: t)) 0%float).
  rewrite IH by (simpl in *; lia). reflexivity.
Qed.

Lemma square_length (a : list float) : length (Np.square a) = length a.
Proof. apply length_map. Qed.

Lemma square_nth (a : list float) (i : nat) :
  nth i (Np.square a) 0%float = (nth i a 0 * nth i a 0)%float.
Proof.
  unfold Np.square.
  change 0%float with ((fun v => (v * v)%float) 0%float) at 1.
  now rewrite map_nth.
Qed.

Lemma ones_length (n : nat) : length (Np.ones n) = n.
Proof. apply repeat_length. Qed.

Lemma ones_nth (n i : nat) : i < n -> nth i (Np.ones n) 0%float = 1%float.
Proof. intros H. unfold Np.ones. now rewrite nth_repeat_lt. Qed.

(** [np.convolve] succeeds on non-empty operands, and its result has
    [len a + len v - 1] entries. *)
Lemma convolve_Some (a v : list float) :
  a <> [] -> v <> [] -> exists r, Np.convolve a v = Some r.
Proof.
  intros Ha Hv. unfold Np.convolve.
  destruct (length a <? length v);
    destruct a, v; try contradiction; eexists; reflexivity.
Qed.

Lemma convolve_spec (a v r : list float) :
  Np.convolve a v = Some r ->
  length r = length a + length v - 1
  /\ forall k, k < length r ->
       nth k r 0%float
       = if length a <? length v then Np.conv_at v a k else Np.conv_at a v k.
Proof.
  unfold Np.convolve. intros H.
  assert (Hgen : forall p q : list float,
             match p, q with
             | [], _ => None
             | _, [] => None
             | _, _ => Some (map (Np.conv_at p q)
                               (seq 0 (length p + length q - 1)))
             end = Some r ->
             length r = length p + length q - 1
             /\ forall k, k < length r -> nth k r 0%float = Np.conv_at p q k).
  { intros p q Hpq.
    assert (Hr : r = map (Np.conv_at p q) (seq 0 (length p + length q - 1))).
    { destruct p; [discriminate |]. destruct q; [discriminate |].
      now injection Hpq. }
    rewrite Hr, length_map, length_seq. split; [reflexivity |].
    intros k Hk.
    rewrite (nth_indep _ 0%float (Np.conv_at p q 0))
      by (rewrite length_map, length_seq; exact Hk).
    rewrite map_nth, seq_nth by exact Hk. reflexivity. }
  destruct (length a <? length v); apply Hgen in H;
    destruct H as [Hlen Hnth]; split; auto; lia.
Qed.

Lemma filter_from_seq (lo c : nat) :
  filter (fun i => lo <=? i) (seq 0 c) = seq lo (c - lo).
Proof.
  induction c as [| c IH]; [reflexivity |].
  rewrite seq_S, filter_app, IH. cbn [filter Nat.add].
  destruct (Nat.leb_spec lo c) as [Hle | Hgt].
  - replace (S c - lo) with (S (c - lo)) by lia.
    rewrite seq_S. do 2 f_equal. lia.
  - replace (c - lo) with 0 by lia. replace (S c - lo) with 0 by lia.
    reflexivity.
Qed.

(** The positions the convolution adds up are those of the moving sum. *)
Lemma overlap_summed_positions (n W k : nat) :
  1 <= n -> 1 <= W -> Np.overlap n W k = summed_positions n W k.
Proof.
  intros Hn HW. unfold Np.overlap, summed_positions.
  replace (Nat.min (S k) n) with (S (Nat.min k (n - 1))) by lia.
  rewrite <- filter_from_seq. apply filter_ext_in.
  intros i Hi. apply in_seq in Hi.
  destruct (Nat.leb_spec (k - (W - 1)) i), (Nat.ltb_spec (k - i) W);
    try reflexivity; lia.
Qed.

Lemma rev_seq_sub (k cnt : nat) :
  forall lo, lo + cnt <= S k ->
    map (fun m => k - m) (seq lo cnt) = rev (seq (S k - (lo + cnt)) cnt).
Proof.
  induction cnt as [| c IH]; intros lo H; [reflexivity |].
  rewrite (seq_S c (S k - (lo + S c))), rev_app_distr.
  cbn [seq map rev app]. rewrite IH by lia.
  f_equal; [lia |]. do 2 f_equal. lia.
Qed.

(** With the operands swapped the same positions are met in descending
    order. *)
Lemma overlap_swapped (n W k : nat) :
  1 <= n -> 1 <= W -> k < n + W - 1 ->
  map (fun m => k - m) (Np.overlap W n k) = rev (Np.overlap n W k).
Proof.
  intros Hn HW Hk. unfold Np.overlap.
  rewrite rev_seq_sub by lia. f_equal. f_equal; lia.
Qed.

Section Stages.

Variable butter : Z -> float -> float -> option (list float * list float).
Variable lfilter : list float -> list float -> list float -> list float.

(** C6.  In a pass the derivative holds [filtered[i+1] - filtered[i]] and is
    one entry shorter than the filtered window, the square stage squares
    entry by entry, and the integration stage is the full convolution with
    [W] ones: [len(squared) + W - 1] entries, entry [k] being the sum of the
    squared entries at the positions [i] with [k - i] between 0 and [W - 1]
    (fewer than [W] of them near both ends), each multiplied by the kernel
    value 1; the terms are added by ascending [i], and by descending [i]
    when the squared signal is shorter than the kernel. *)
Theorem pass_derivative_square_integration (self : QRSDetector) (s : stages) :
  signal_stages butter lfilter self = Some s ->
  let filtered := filtered_signal s in
  let differentiated := differentiated_signal s in
  let squared := squared_signal s in
  let integrated := integrated_signal s in
  let W := integration_window self in
  1 <= length filtered
  /\ length differentiated = length filtered - 1
  /\ (forall i, i < length filtered - 1 ->
        nth i differentiated 0%float
        = (nth (i + 1) filtered 0 - nth i filtered 0)%float)
  /\ length squared = length differentiated
  /\ (forall i, i < length differentiated ->
        nth i squared 0%float
        = (nth i differentiated 0 * nth i differentiated 0)%float)
  /\ Np.convolve squared (Np.ones W) = Some integrated
  /\ length integrated = length squared + W - 1
  /\ (forall k, k < length squared + W - 1 ->
        let positions := summed_positions (length squared) W k in
        length positions
        = S (Nat.min k (length squared - 1)) - (k - (W - 1))
        /\ nth k integrated 0%float
           = if W <=? length squared
             then Np.fsum (map (fun i => (nth i squared 0 * 1)%float)
                             positions)
             else Np.fsum (map (fun i => (1 * nth i squared 0)%float)
                             (rev positions))).
Proof.
  intros H filtered differentiated squared integrated W.
  apply signal_stages_inv in H.
  destruct H as (_ & Hdiff & Hsq & Hconv & _).
  fold differentiated filtered in Hdiff. fold squared differentiated in Hsq.
  fold squared W integrated in Hconv.
  destruct (convolve_nonempty _ _ _ Hconv) as [Hsq_ne Hones_ne].
  destruct (convolve_spec _ _ _ Hconv) as [Hlen Hnth].
  rewrite ones_length in Hlen.
  assert (Hn : 1 <= length squared)
    by (destruct squared; [contradiction | simpl; lia]).
  assert (HW : 1 <= W).
  { destruct W; [now destruct Hones_ne | lia]. }
  assert (Hdl : length differentiated = length filtered - 1)
    by (rewrite Hdiff; apply ediff1d_length).
  assert (Hsl : length squared = length differentiated)
    by (rewrite Hsq; apply square_length).
  split; [lia |]. split; [exact Hdl |].
  split. { intros i Hi. rewrite Hdiff. apply ediff1d_nth. lia. }
  split; [exact Hsl |].
  split. { intros i _. rewrite Hsq. apply square_nth. }
  split; [exact Hconv |]. split; [exact Hlen |].
  intros k Hk positions. subst positions.
  rewrite <- overlap_summed_positions by lia.
  split. { unfold Np.overlap. now rewrite length_seq. }
  rewrite Hnth by lia. rewrite ones_length.
  destruct (Nat.ltb_spec (length squared) W) as [Hlt | Hge].
  - destruct (Nat.leb_spec W (length squared)) as [Hle | _]; [lia |].
    unfold Np.conv_at. rewrite ones_length.
    rewrite <- overlap_swapped by lia. rewrite map_map.
    f_equal. apply map_ext_in. intros m Hm.
    unfold Np.overlap in Hm. apply in_seq in Hm.
    rewrite ones_nth by lia. reflexivity.
  - destruct (Nat.leb_spec W (length squared)) as [_ | Hgt]; [| lia].
    unfold Np.conv_at. rewrite ones_length.
    f_equal. apply map_ext_in. intros m Hm.
    unfold Np.overlap in Hm. apply in_seq in Hm.
    rewrite ones_nth by lia. reflexivity.
Qed.

End Stages.

Lemma pass_derivative_square_integration_witness :
  let s := pulse_stages 161 in
  let filtered := filtered_signal s in
  let differentiated := differentiated_signal s in
  let squared := squared_signal s in
  let integrated := integrated_signal s in
  let W := integration_window (pulse_pass 161) in
  1 <= length filtered
  /\ length differentiated = length filtered - 1
  /\ (forall i, i < length filtered - 1 ->
        nth i differentiated 0%float
        = (nth (i + 1) filtered 0 - nth i filtered 0)%float)
  /\ length squared = length differentiated
  /\ (forall i, i < length differentiated ->
        nth i squared 0%float
        = (nth i differentiated 0 * nth i differentiated 0)%float)
  /\ Np.convolve squared (Np.ones W) = Some integrated
  /\ length integrated = length squared + W - 1
  /\ (forall k, k < length squared + W - 1 ->
        let positions := summed_positions (length squared) W k in
        length positions
        = S (Nat.min k (length squared - 1)) - (k - (W - 1))
        /\ nth k integrated 0%float
           = if W <=? length squared
             then Np.fsum (map (fun i => (nth i squared 0 * 1)%float)
                             positions)
             else Np.fsum (map (fun i => (1 * nth i squared 0)%float)
                             (rev positions))).
Proof.
  apply (pass_derivative_square_integration butter_unit lfilter_direct
           (pulse_pass 161) (pulse_stages 161)).
  vm_compute. reflexivity.
Defined.

(** ** The sample window *)

Lemma deque_append_window (q : deque) (v : float) :
  maxlen q = 200 -> 1 <= length (items q) <= 200 ->
  maxlen (deque_append q v) = 200
  /\ 2 <= length (items (deque_append q v)) <= 200.
Proof.
  destruct q as [l n]. cbn [maxlen items]. intros -> Hl.
  unfold deque_append. cbn [maxlen items].
  destruct (Nat.ltb_spec (length l) 200) as [Hlt | Hge];
    cbn [maxlen items]; rewrite length_app; cbn [length].
  - split; [reflexivity | lia].
  - destruct l as [| x l]; cbn [tl length] in *; split; auto; lia.
Qed.

(** A float strictly greater than the amplitude floor 0.40 is strictly
    greater than 0. *)
Lemma above_floor_positive (v : float) :
  (v >.? 0.40) = true -> (v >.? 0) = true.
Proof.
  unfold fgt. rewrite !FloatAxioms.ltb_spec.
  replace (Prim2SF 0.40) with (S754_finite false 7205759403792794%positive (-54)%Z)
    by (vm_compute; reflexivity).
  replace (Prim2SF 0) with (S754_zero false) by reflexivity.
  destruct (Prim2SF v) as [sg | sg | | sg m e]; try destruct sg; cbn;
    try discriminate; auto.
Qed.

Lemma parameters_fields (a b : QRSDetector) :
  parameters a = parameters b ->
  number_of_samples_stored a = number_of_samples_stored b
  /\ integration_window a = integration_window b
  /\ findpeaks_limit a = findpeaks_limit b
  /\ findpeaks_spacing a = findpeaks_spacing b
  /\ detection_window a = detection_window b.
Proof.
  unfold parameters. intros [= -> _ _ _ -> -> -> _ -> _ _ _]. auto.
Qed.

Section Invariants.

Variable butter : Z -> float -> float -> option (list float * list float).
Variable lfilter : list float -> list float -> list float -> list float.

(** [process_measurement] keeps the configuration, and keeps the window
    within its bounds. *)
Lemma process_measurement_invariant (self self' : QRSDetector)
  (raw : raw_measurement) (o : outcome) :
  process_measurement butter lfilter self raw = (self', o) ->
  parameters self' = parameters self
  /\ signal_freq_samples_per_sec self' = signal_freq_samples_per_sec self
  /\ (window_ok self -> window_ok self').
Proof.
  intros H. apply process_measurement_cases in H.
  destruct H as [(_ & -> & _) | (t & m & _ & _ & H)]; [auto |].
  assert (Happ : forall q,
             window_ok self -> q = deque_append (most_recent_measurements self) m ->
             maxlen q = 200 /\ 1 <= length (items q) <= 200).
  { intros q [Hm Hl] ->.
    destruct (deque_append_window _ m Hm Hl). split; [auto | lia]. }
  destruct H as [(_ & -> & _) | (d & _ & He)].
  - destruct self. cbn. repeat split; auto;
      eapply (Happ _ H); reflexivity.
  - unfold extract_peaks in He.
    destruct (signal_stages _ _ _) as [s |]; [| discriminate].
    injection He as He. apply detect_qrs_counter in He.
    destruct He as (Hp & Hf & Hw & _). unfold window_ok. rewrite Hp, Hf, Hw.
    destruct self. cbn. repeat split; auto; eapply (Happ _ H); reflexivity.
Qed.

Lemma read_loop_invariant (lines : list raw_measurement) :
  forall self : QRSDetector,
    let final := fst (read_loop butter lfilter self lines) in
    parameters final = parameters self
    /\ (window_ok self -> window_ok final).
Proof.
  induction lines as [| raw rest IH]; intros self; [cbn; auto |].
  cbn [read_loop].
  destruct (process_measurement butter lfilter self raw) as [self' o] eqn:Hp.
  destruct (process_measurement_invariant _ _ _ _ Hp) as (Hpar & _ & Hw).
  specialize (IH self'). cbn zeta in IH.
  destruct o; [| | cbn; auto];
    destruct (read_loop butter lfilter self' rest) as [self'' os];
    cbn [fst] in *; destruct IH as [IHp IHw]; split;
    try congruence; auto.
Qed.

End Invariants.

Lemma lfilter_from_length (b a xs ys data : list float) :
  length (lfilter_from b a xs ys data) = length data.
Proof.
  revert xs ys. induction data as [| x data IH]; intros xs ys;
    [reflexivity |].
  cbn [lfilter_from length]. now rewrite IH.
Qed.

Lemma lfilter_direct_length (b a data : list float) :
  length (lfilter_direct b a data) = length data.
Proof. apply lfilter_from_length. Qed.

Section Window.

Variable butter : Z -> float -> float -> option (list float * list float).
Variable lfilter : list float -> list float -> list float -> list float.

(** scipy's [lfilter] returns an array of the shape of its input. *)
Hypothesis lfilter_length :
  forall b a data, length (lfilter b a data) = length data.

Lemma bandpass_filter_length (data filtered : list float)
  (lowcut highcut signal_freq : float) (order : Z) :
  bandpass_filter butter lfilter data lowcut highcut signal_freq order
  = Some filtered ->
  length filtered = length data.
Proof.
  unfold bandpass_filter. destruct (_ =? _)%float; [discriminate |].
  destruct (butter _ _ _) as [[b a] |]; [| discriminate].
  intros [= <-]. apply lfilter_length.
Qed.

(** With at least two samples in the window, a pass whose filter design
    succeeds goes through: the integrated signal is not empty, and
    [findpeaks] returns. *)
Lemma pass_completes (self : QRSDetector) (filtered : list float) :
  default_parameters self ->
  2 <= length (items (most_recent_measurements self)) ->
  bandpass_filter butter lfilter (items (most_recent_measurements self))
    (filter_lowcut self) (filter_highcut self)
    (signal_freq_samples_per_sec self) (filter_order self)
  = Some filtered ->
  exists s, signal_stages butter lfilter self = Some s
    /\ filtered_signal s = filtered
    /\ length (integrated_signal s)
       = length (items (most_recent_measurements self)) + 13
    /\ findpeaks (integrated_signal s) (findpeaks_spacing self)
         (Some (findpeaks_limit self)) = Some (found_peaks s).
Proof.
  intros Hpar Hlen Hbp.
  pose proof (bandpass_filter_length _ _ _ _ _ _ Hbp) as Hfl.
  apply parameters_fields in Hpar. destruct Hpar as (_ & HW & _).
  cbn in HW.
  unfold signal_stages. rewrite Hbp, HW.
  set (squared := Np.square (Np.ediff1d filtered)).
  assert (Hsq : length squared = length filtered - 1)
    by (unfold squared; now rewrite square_length, ediff1d_length).
  destruct (convolve_Some squared (Np.ones 15)) as [integrated Hconv].
  { destruct squared; [simpl in Hsq; lia | discriminate]. }
  { discriminate. }
  rewrite Hconv.
  destruct (convolve_spec _ _ _ Hconv) as [Hil _].
  rewrite ones_length in Hil.
  destruct (findpeaks_spec integrated (findpeaks_spacing self)
              (Some (findpeaks_limit self))) as (peaks & Hfind & _).
  { destruct integrated; [simpl in Hil; lia | discriminate]. }
  rewrite Hfind. eexists. split; [reflexivity |]. cbn.
  repeat split; auto. lia.
Qed.

(** C10.  The window of a fresh detector holds the seed value 0 and has
    capacity 200; after any run it holds between 1 and 200 values; appending
    a sample to a full window drops the oldest value; and the window handed
    to a pass, the sample just appended, holds at least two values, so that
    when the filter is designed the pass reaches [findpeaks] with a
    non-empty integrated signal, whose first and last entries exist. *)
Theorem window_never_empty (signal_freq : float)
  (lines : list raw_measurement) :
  most_recent_measurements (QRSDetector_init signal_freq)
  = mkDeque [0%float] 200
  /\ (let final :=
        fst (QRSDetector_run butter lfilter signal_freq lines) in
      default_parameters final /\ window_ok final)
  /\ (forall (self : QRSDetector) (measurement : float),
        default_parameters self -> window_ok self ->
        let appended :=
          set_most_recent_measurements
            (deque_append (most_recent_measurements self) measurement)
            self in
        2 <= length (items (most_recent_measurements appended)) <= 200
        /\ items (most_recent_measurements appended)
           = (if length (items (most_recent_measurements self)) <? 200
              then items (most_recent_measurements self)
              else tl (items (most_recent_measurements self)))
             ++ [measurement]
        /\ forall filtered,
             bandpass_filter butter lfilter
               (items (most_recent_measurements appended))
               (filter_lowcut appended) (filter_highcut appended)
               (signal_freq_samples_per_sec appended)
               (filter_order appended)
             = Some filtered ->
             exists s,
               signal_stages butter lfilter appended = Some s
               /\ integrated_signal s <> []
               /\ findpeaks (integrated_signal s)
                    (findpeaks_spacing appended)
                    (Some (findpeaks_limit appended))
                  = Some (found_peaks s)).
Proof.
  split; [reflexivity |]. split.
  - intros final.
    destruct (read_loop_invariant butter lfilter lines
                (QRSDetector_init signal_freq)) as [Hp Hw].
    split; [exact Hp |]. apply Hw. unfold window_ok.
    cbn [QRSDetector_init most_recent_measurements maxlen items length].
    split; [reflexivity | lia].
  - intros self m Hpar [Hmax Hlen] appended.
    destruct (deque_append_window _ m Hmax Hlen) as [_ Happ].
    assert (Hitems : items (most_recent_measurements appended)
                     = items (deque_append (most_recent_measurements self) m))
      by (destruct self; reflexivity).
    rewrite Hitems. split; [exact Happ |]. split.
    { unfold deque_append. rewrite Hmax.
      now destruct (length (items (most_recent_measurements self)) <? 200). }
    intros filtered Hbp.
    assert (Hpar' : default_parameters appended)
      by (destruct self; exact Hpar).
    destruct (pass_completes appended filtered Hpar') as (s & Hs & _ & Hl & Hf).
    + rewrite Hitems. lia.
    + rewrite Hitems. exact Hbp.
    + exists s. split; [exact Hs |]. split; [| exact Hf].
      intros Hnil. rewrite Hnil in Hl. simpl in Hl. lia.
Qed.

End Window.

Lemma window_never_empty_witness :
  let final :=
    fst (QRSDetector_run butter_unit lfilter_direct 255
           [Parsed 0 1; Parsed 1 11; Unparsable; Parsed 2 (-1)]) in
  default_parameters final /\ window_ok final.
Proof.
  apply (window_never_empty butter_unit lfilter_direct lfilter_direct_length
           255 [Parsed 0 1; Parsed 1 11; Unparsable; Parsed 2 (-1)]).
Defined.

(** ** Peak values and the zero threshold *)

Section WarmUp.

Variable butter : Z -> float -> float -> option (list float * list float).
Variable lfilter : list float -> list float -> list float -> list float.

(** Every value handed to [detect_qrs] is strictly positive. *)
Lemma detected_values_positive (self : QRSDetector) (s : stages) :
  default_parameters self ->
  signal_stages butter lfilter self = Some s ->
  forall v, In v (detected_peaks_values s) -> (v >.? 0) = true.
Proof.
  intros Hpar Hs v Hv.
  destruct (detected_peaks_facts butter lfilter self s Hs) as [_ Hfacts].
  apply signal_stages_inv in Hs. destruct Hs as (_ & _ & _ & _ & _ & _ & Hval).
  rewrite Hval in Hv. unfold Np.take in Hv. apply in_map_iff in Hv.
  destruct Hv as (i & <- & Hi). apply Hfacts in Hi. destruct Hi as [_ Hi].
  apply parameters_fields in Hpar. destruct Hpar as (_ & _ & Hlim & _).
  rewrite Hlim in Hi. now apply above_floor_positive.
Qed.

(** While the threshold is 0.0 a pass never classifies a peak as noise, and
    a pass without decision leaves the threshold at 0.0. *)
Lemma pass_with_zero_threshold (self self' : QRSDetector) (d : decision) :
  default_parameters self ->
  threshold_value self = 0%float ->
  extract_peaks butter lfilter self = Some (self', d) ->
  d <> NoisePeak /\ (d = NoDecision -> threshold_value self' = 0%float).
Proof.
  intros Hpar Hthr He. unfold extract_peaks in He.
  destruct (signal_stages butter lfilter self) as [s |] eqn:Hs;
    [| discriminate].
  injection He as He. rewrite detect_qrs_cases in He.
  destruct (_ && _) eqn:Hel.
  - apply andb_true_iff in Hel. destruct Hel as [_ Hne].
    apply Nat.ltb_lt in Hne.
    assert (Hpos : (last (detected_peaks_values s) 0%float >.? 0) = true).
    { apply (detected_values_positive self s Hpar Hs).
      pose proof (signal_stages_inv _ _ _ _ Hs)
        as (_ & _ & _ & _ & _ & _ & Hval).
      assert (Hvne : detected_peaks_values s <> []).
      { rewrite Hval. unfold Np.take.
        destruct (detected_peaks_indices s); [simpl in Hne; lia |].
        discriminate. }
      destruct (exists_last Hvne) as (l & x & ->).
      rewrite last_last. apply in_or_app. right. now left. }
    rewrite Hthr, Hpos in He. injection He as <- <-.
    split; [discriminate | intros H; discriminate].
  - injection He as <- <-. split; [discriminate |].
    intros _. destruct self; exact Hthr.
Qed.

(** From a state whose threshold is 0.0, a noise peak is never the first
    classification of a run. *)
Lemma noise_follows_signal (lines : list raw_measurement) :
  forall (self : QRSDetector) (k : nat),
    default_parameters self ->
    threshold_value self = 0%float ->
    nth k (decisions (snd (read_loop butter lfilter self lines))) NoDecision
    = NoisePeak ->
    exists j, j < k
      /\ nth j (decisions (snd (read_loop butter lfilter self lines)))
           NoDecision = SignalPeak.
Proof.
  induction lines as [| raw rest IH]; intros self k Hpar Hthr Hk.
  - destruct k; discriminate.
  - rewrite decisions_read_loop in *.
    destruct (process_measurement butter lfilter self raw) as [self' o]
      eqn:Hp.
    pose proof (process_measurement_cases _ _ _ _ _ _ Hp) as Hc.
    destruct Hc as [(-> & -> & _) | (t & m & _ & _ & Hc)];
      [now apply IH |].
    destruct Hc as [(-> & _) | (d & -> & He)];
      [destruct k; discriminate |].
    assert (Hpar' : default_parameters
                      (set_most_recent_measurements
                         (deque_append (most_recent_measurements self) m)
                         self))
      by (destruct self; exact Hpar).
    assert (Hthr' : threshold_value
                      (set_most_recent_measurements
                         (deque_append (most_recent_measurements self) m)
                         self) = 0%float)
      by (destruct self; exact Hthr).
    destruct (pass_with_zero_threshold _ _ _ Hpar' Hthr' He) as [Hnn Hnd].
    destruct (process_measurement_invariant _ _ _ _ _ _ Hp) as (Hp' & _).
    destruct k as [| k']; [simpl in Hk; contradiction |].
    simpl in Hk. destruct d.
    + destruct (IH self' k') as (j & Hj & Hs); auto.
      { unfold default_parameters. now rewrite Hp'. }
      exists (S j). split; [lia | exact Hs].
    + exists 0. split; [lia | reflexivity].
    + contradiction.
Qed.

End WarmUp.

(** ** Construction and the filter cutoffs *)

(** C8, as the specification states it, fails.  The cutoffs that [__init__]
    sets are not valid (the low cutoff 0.0 is not above 0), and the
    constructor still sets the initial state and reads lines.  With a filter
    design that rejects such cutoffs the error comes only in the pass of the
    first accepted sample, after that sample has been appended to the
    window; with a design that accepts them there is no error at all. *)
Lemma invalid_cutoffs_are_not_rejected_before_reading :
  cutoffs_valid (QRSDetector_init 255) = false
  /\ QRSDetector_run butter_checked lfilter_direct 255 []
     = (QRSDetector_init 255, [])
  /\ (let r := QRSDetector_run butter_checked lfilter_direct 255
                 [Parsed 0 11; Unparsable; Parsed 1 1] in
      snd r = [Dropped; Dropped; Raised]
      /\ items (most_recent_measurements (fst r)) = [0; 1]%float)
  /\ snd (QRSDetector_run butter_unit lfilter_direct 255
            [Parsed 0 11; Unparsable; Parsed 1 1])
     = [Dropped; Dropped; Processed NoDecision].
Proof. vm_compute. repeat split; reflexivity. Qed.

Section Construction.

Variable butter : Z -> float -> float -> option (list float * list float).
Variable lfilter : list float -> list float -> list float -> list float.

Lemma read_loop_dropped (lines : list raw_measurement) :
  forall self : QRSDetector,
    (forall raw, In raw lines ->
       raw = Unparsable
       \/ exists t m, raw = Parsed t m /\ (m >.? 10) = true) ->
    read_loop butter lfilter self lines
    = (self, map (fun _ => Dropped) lines).
Proof.
  induction lines as [| raw rest IH]; intros self H; [reflexivity |].
  cbn [read_loop map].
  assert (Hp : process_measurement butter lfilter self raw = (self, Dropped)).
  { destruct (H raw (or_introl eq_refl)) as [-> | (t & m & -> & Hm)];
      [reflexivity |].
    unfold process_measurement. now rewrite Hm. }
  rewrite Hp, IH; [reflexivity |].
  intros raw' Hin. apply H. now right.
Qed.

(** Dropped lines at the start of a run only add their outcomes. *)
Lemma read_loop_after_dropped (dropped lines : list raw_measurement) :
  forall self : QRSDetector,
    (forall raw, In raw dropped ->
       raw = Unparsable
       \/ exists t m, raw = Parsed t m /\ (m >.? 10) = true) ->
    read_loop butter lfilter self (dropped ++ lines)
    = (fst (read_loop butter lfilter self lines),
       map (fun _ => Dropped) dropped
       ++ snd (read_loop butter lfilter self lines)).
Proof.
  induction dropped as [| raw rest IH]; intros self H.
  - cbn [app map]. now destruct (read_loop butter lfilter self lines).
  - cbn [app read_loop map].
    assert (Hp : process_measurement butter lfilter self raw
                 = (self, Dropped)).
    { destruct (H raw (or_introl eq_refl)) as [-> | (t & m & -> & Hm)];
        [reflexivity |].
      unfold process_measurement. now rewrite Hm. }
    rewrite Hp, IH; [reflexivity |].
    intros raw' Hin. apply H. now right.
Qed.

(** A pass raises when the Nyquist frequency is 0 or the filter design
    fails; the sample has been appended by then. *)
Lemma pass_raises (self : QRSDetector) (timestamp measurement : float) :
  (measurement >.? 10) = false ->
  let nyquist_freq := (0.5 * signal_freq_samples_per_sec self)%float in
  (nyquist_freq =? 0)%float = true
  \/ butter (filter_order self) (filter_lowcut self / nyquist_freq)
       (filter_highcut self / nyquist_freq) = None ->
  process_measurement butter lfilter self (Parsed timestamp measurement)
  = (set_most_recent_measurements
       (deque_append (most_recent_measurements self) measurement) self,
     Raised).
Proof.
  intros Hm nyq Hfail. unfold process_measurement. rewrite Hm.
  assert (He : extract_peaks butter lfilter
                 (set_most_recent_measurements
                    (deque_append (most_recent_measurements self)
                       measurement) self)
               = None).
  { unfold extract_peaks, signal_stages, bandpass_filter.
    subst nyq. destruct self. cbn in Hfail |- *.
    destruct Hfail as [H0 | Hb]; [now rewrite H0 |].
    destruct (_ =? 0)%float; [reflexivity | now rewrite Hb]. }
  now rewrite He.
Qed.

(** C8, amended.  The constructor does not check the cutoffs before it
    reads: it sets the configuration, whose cutoffs are never valid (the low
    cutoff 0.0 is not above 0), and the initial state, and enters the
    reading loop.  Lines that are dropped are read without error.  The
    cutoffs are first used by [bandpass_filter], in the pass of the first
    accepted sample: when the Nyquist frequency is 0 or the filter design
    rejects the normalised cutoffs, that pass raises, which ends the reading
    loop and with it the constructor; the sample has by then been appended
    to the window, which holds the seed and the sample, and the lines after
    it are not read.  The same holds of a pass from any state. *)
Theorem cutoffs_are_used_only_in_a_pass (signal_freq : float) :
  cutoffs_valid (QRSDetector_init signal_freq) = false
  /\ (forall lines,
        (forall raw, In raw lines ->
           raw = Unparsable
           \/ exists t m, raw = Parsed t m /\ (m >.? 10) = true) ->
        QRSDetector_run butter lfilter signal_freq lines
        = (QRSDetector_init signal_freq, map (fun _ => Dropped) lines))
  /\ (forall (dropped rest : list raw_measurement)
        (timestamp measurement : float),
        (forall raw, In raw dropped ->
           raw = Unparsable
           \/ exists t m, raw = Parsed t m /\ (m >.? 10) = true) ->
        (measurement >.? 10) = false ->
        let nyquist_freq := (0.5 * signal_freq)%float in
        (nyquist_freq =? 0)%float = true
        \/ butter 1 (0.0 / nyquist_freq) (15.0 / nyquist_freq) = None ->
        QRSDetector_run butter lfilter signal_freq
          (dropped ++ Parsed timestamp measurement :: rest)
        = (set_most_recent_measurements
             (mkDeque [0%float; measurement] 200)
             (QRSDetector_init signal_freq),
           map (fun _ => Dropped) dropped ++ [Raised]))
  /\ (forall (self : QRSDetector) (timestamp measurement : float),
        (measurement >.? 10) = false ->
        let nyquist_freq := (0.5 * signal_freq_samples_per_sec self)%float in
        (nyquist_freq =? 0)%float = true
        \/ butter (filter_order self) (filter_lowcut self / nyquist_freq)
             (filter_highcut self / nyquist_freq) = None ->
        process_measurement butter lfilter self (Parsed timestamp measurement)
        = (set_most_recent_measurements
             (deque_append (most_recent_measurements self) measurement) self,
           Raised)).
Proof.
  split; [reflexivity |]. split; [| split].
  - intros lines H. unfold QRSDetector_run. now apply read_loop_dropped.
  - intros dropped rest t m Hd Hm nyq Hfail. unfold QRSDetector_run.
    rewrite (read_loop_after_dropped _ _ _ Hd). cbn [read_loop].
    rewrite (pass_raises (QRSDetector_init signal_freq) t m Hm Hfail).
    reflexivity.
  - intros self t m Hm nyq Hfail. now apply pass_raises.
Qed.

End Construction.

Lemma cutoffs_are_used_only_in_a_pass_witness :
  QRSDetector_run butter_checked lfilter_direct 255
    ([Parsed 0 11; Unparsable] ++ Parsed 1 1 :: [Parsed 2 2])
  = (set_most_recent_measurements (mkDeque [0; 1]%float 200)
       (QRSDetector_init 255),
     map (fun _ => Dropped) [Parsed 0 11; Unparsable] ++ [Raised]).
Proof.
  apply (proj1 (proj2 (proj2 (cutoffs_are_used_only_in_a_pass
                                butter_checked lfilter_direct 255)))).
  - intros raw [<- | [<- | []]];
      [right; exists 0%float, 11%float; split; reflexivity | now left].
  - reflexivity.
  - right. reflexivity.
Defined.

(** ** The sample recording *)

(** The run of a fresh detector over the first 161 lines of the recording
    makes no decision; it reaches the pass for line 161 in the state
    [pulse_pass 161], and the pass for the last line, 198, with the window
    of [pulse_pass 198]. *)
Lemma pulse_run_161 :
  QRSDetector_run butter_unit lfilter_direct 255 (firstn 161 pulse_lines)
  = (set_time_since_last_detected_qrs 161
       (set_most_recent_measurements
          (mkDeque (0%float :: firstn 161 pulse_samples) 200)
          (QRSDetector_init 255)),
     repeat (Processed NoDecision) 161).
Proof. vm_compute. reflexivity. Qed.

Lemma pulse_pass_161_reached : pulse_pass_of_run 161 = pulse_pass 161.
Proof.
  unfold pulse_pass_of_run. rewrite pulse_run_161. vm_compute. reflexivity.
Qed.

Lemma pulse_window_198_reached :
  most_recent_measurements (pulse_pass_of_run 198)
  = most_recent_measurements (pulse_pass 198).
Proof. vm_compute. reflexivity. Qed.

(** ** The order of floats *)

Lemma SFltb_asym (x y : spec_float) : SFltb x y = true -> SFltb y x = false.
Proof.
  unfold SFltb, SFcompare.
  destruct x as [sx | sx | | sx mx ex], y as [sy | sy | | sy my ey];
    try destruct sx; try destruct sy; try discriminate; try reflexivity;
    rewrite (Z.compare_antisym ex ey); destruct (ex ?= ey)%Z; cbn;
    try discriminate; try reflexivity;
    change (Pos.compare_cont Eq my mx)
      with (Pos.compare_cont (CompOpp Eq) my mx);
    rewrite <- Pos.compare_cont_antisym;
    destruct (Pos.compare_cont Eq mx my); cbn; try discriminate; reflexivity.
Qed.

(** [>] on floats is asymmetric and irreflexive (also at NaN, where it is
    false). *)
Lemma fgt_asym (x y : float) : (x >.? y) = true -> (y >.? x) = false.
Proof. unfold fgt. rewrite !FloatAxioms.ltb_spec. apply SFltb_asym. Qed.

Lemma fgt_irrefl (x : float) : (x >.? x) = false.
Proof.
  destruct (x >.? x) eqn:E; [| reflexivity].
  pose proof (fgt_asym _ _ E). congruence.
Qed.

(** ** More on the peak finder *)

Lemma padded_inside (data : list float) (i : nat) :
  i < length data -> padded data (Z.of_nat i) = nth i data 0%float.
Proof.
  intros H. unfold padded.
  destruct (Z.ltb_spec (Z.of_nat i) 0); [lia |].
  destruct (Z.ltb_spec (Z.of_nat i) (Z.of_nat (length data))); [| lia].
  now rewrite Nat2Z.id.
Qed.

(** X1.  Two peaks that [findpeaks] returns are more than [spacing]
    positions apart. *)
Theorem findpeaks_peaks_are_spaced (data : list float) (spacing : nat)
  (limit : option float) (ind : list nat) (i j : nat) :
  findpeaks data spacing limit = Some ind ->
  In i ind -> In j ind -> i < j -> spacing < j - i.
Proof.
  intros H Hi Hj Hij. apply findpeaks_Some in H. destruct H as (_ & _ & Hin).
  apply Hin in Hi. apply Hin in Hj.
  destruct Hi as (_ & Hpi & _), Hj as (_ & Hpj & _).
  destruct (Nat.lt_ge_cases spacing (j - i)) as [Hlt | Hge]; [exact Hlt |].
  exfalso.
  destruct (Hpi (j - i) ltac:(lia)) as [_ Hup].
  destruct (Hpj (j - i) ltac:(lia)) as [Hdown _].
  replace (Z.of_nat i + Z.of_nat (j - i))%Z with (Z.of_nat j) in Hup by lia.
  replace (Z.of_nat j - Z.of_nat (j - i))%Z with (Z.of_nat i) in Hdown by lia.
  apply fgt_asym in Hup. congruence.
Qed.

Lemma findpeaks_peaks_are_spaced_witness :
  findpeaks [1; 3; 2; 5; 4]%float 1 (Some 0.40%float) = Some [1; 3]
  /\ 1 < 3 - 1.
Proof.
  split; [vm_compute; reflexivity |].
  apply (findpeaks_peaks_are_spaced [1; 3; 2; 5; 4]%float 1 (Some 0.40%float)
           [1; 3] 1 3).
  - vm_compute. reflexivity.
  - simpl. auto.
  - simpl. auto.
  - lia.
Defined.

(** X2.  A position whose value is equal to the value at another position
    at most [spacing] away is not returned: the samples of a plateau are
    never peaks. *)
Theorem findpeaks_skips_plateaus (data : list float) (spacing : nat)
  (limit : option float) (ind : list nat) (i j : nat) :
  findpeaks data spacing limit = Some ind ->
  i < length data -> j < length data -> i <> j ->
  i - j <= spacing -> j - i <= spacing ->
  nth i data 0%float = nth j data 0%float ->
  ~ In i ind.
Proof.
  intros H Hi Hj Hne Hd1 Hd2 Heq Hin.
  apply findpeaks_Some in H. destruct H as (_ & _ & Hchar).
  apply Hchar in Hin. destruct Hin as (_ & Hp & _).
  assert (Hgt : (padded data (Z.of_nat i) >.? padded data (Z.of_nat j))
                = true).
  { destruct (Nat.lt_ge_cases i j) as [Hlt | Hge].
    - destruct (Hp (j - i) ltac:(lia)) as [_ Hup].
      now replace (Z.of_nat i + Z.of_nat (j - i))%Z with (Z.of_nat j)
        in Hup by lia.
    - destruct (Hp (i - j) ltac:(lia)) as [Hdown _].
      now replace (Z.of_nat i - Z.of_nat (i - j))%Z with (Z.of_nat j)
        in Hdown by lia. }
  rewrite !padded_inside, Heq, fgt_irrefl in Hgt by assumption.
  discriminate.
Qed.

Lemma findpeaks_skips_plateaus_witness :
  findpeaks [1; 2; 2; 5; 4]%float 1 (Some 0.40%float) = Some [3]
  /\ ~ In 1 [3].
Proof.
  split; [vm_compute; reflexivity |].
  apply (findpeaks_skips_plateaus [1; 2; 2; 5; 4]%float 1 (Some 0.40%float)
           [3] 1 2).
  - vm_compute. reflexivity.
  - simpl. lia.
  - simpl. lia.
  - lia.
  - lia.
  - lia.
  - reflexivity.
Defined.

Lemma argwhere_from_all (n i0 : nat) :
  Np.argwhere_from i0 (repeat true n) = seq i0 n.
Proof.
  revert i0. induction n as [| n IH]; intros i0; [reflexivity |].
  cbn [repeat Np.argwhere_from seq]. now rewrite IH.
Qed.

(** X3.  [findpeaks] raises exactly on the empty array; and with a spacing
    of 0, which its docstring advises against, it returns every position
    whose value is above the limit (every position when no limit is
    given). *)
Theorem findpeaks_empty_and_zero_spacing (data : list float)
  (spacing : nat) (limit : option float) :
  (findpeaks data spacing limit = None <-> data = [])
  /\ (data <> [] ->
      findpeaks data 0 limit
      = Some match limit with
             | None => seq 0 (length data)
             | Some l => filter (fun i => nth i data 0%float >.? l)
                           (seq 0 (length data))
             end).
Proof.
  split.
  - split; [| now intros ->].
    intros H. destruct data as [| d0 rest]; [reflexivity |].
    destruct (findpeaks_spec (d0 :: rest) spacing limit) as (ind & Hf & _);
      [discriminate | congruence].
  - intros Hne. destruct data as [| d0 rest]; [contradiction |].
    unfold findpeaks. cbn [seq fold_left]. unfold Np.argwhere.
    rewrite argwhere_from_all. reflexivity.
Qed.

(** ** More on passes and runs *)

Lemma deque_append_items (q : deque) (v : float) :
  maxlen q = 200 -> length (items q) <= 200 ->
  maxlen (deque_append q v) = 200
  /\ length (items (deque_append q v)) <= 200
  /\ length (items (deque_append q v)) <= length (items q) + 1
  /\ items (deque_append q v) = last_n 200 (items q ++ [v]).
Proof.
  destruct q as [l n]. cbn [maxlen items]. intros -> Hl.
  unfold deque_append, last_n. cbn [maxlen items].
  rewrite !length_app. cbn [length].
  destruct (Nat.ltb_spec (length l) 200) as [Hlt | Hge]; cbn [maxlen items].
  - rewrite length_app. cbn [length].
    replace (length l + 1 - 200) with 0 by lia.
    repeat split; auto; lia.
  - destruct l as [| x l]; [simpl in Hge; lia |].
    cbn [tl length] in *. rewrite length_app. cbn [length].
    replace (S (length l) + 1 - 200) with 1 by lia.
    repeat split; auto; lia.
Qed.

Lemma last_n_app {A : Type} (n : nat) (a b : list A) :
  last_n n (last_n n a ++ b) = last_n n (a ++ b).
Proof.
  unfold last_n. rewrite !length_app, length_skipn.
  rewrite !skipn_app, skipn_skipn, length_skipn.
  f_equal; f_equal; lia.
Qed.

Section MoreRuns.

Variable butter : Z -> float -> float -> option (list float * list float).
Variable lfilter : list float -> list float -> list float -> list float.

(** The final state of a run, by the outcome of its first line. *)
Lemma fst_read_loop (self : QRSDetector) (raw : raw_measurement)
  (rest : list raw_measurement) :
  fst (read_loop butter lfilter self (raw :: rest))
  = match process_measurement butter lfilter self raw with
    | (self', Raised) => self'
    | (self', _) => fst (read_loop butter lfilter self' rest)
    end.
Proof.
  cbn [read_loop].
  destruct (process_measurement butter lfilter self raw) as [self' o].
  destruct o; [| | reflexivity];
    destruct (read_loop butter lfilter self' rest); reflexivity.
Qed.

Lemma length_read_loop (self : QRSDetector) (raw : raw_measurement)
  (rest : list raw_measurement) :
  length (snd (read_loop butter lfilter self (raw :: rest)))
  = match process_measurement butter lfilter self raw with
    | (self', Raised) => 1
    | (self', _) => S (length (snd (read_loop butter lfilter self' rest)))
    end.
Proof.
  cbn [read_loop].
  destruct (process_measurement butter lfilter self raw) as [self' o].
  destruct o; [| | reflexivity];
    destruct (read_loop butter lfilter self' rest); reflexivity.
Qed.

(** A pass in the refractory period makes no decision, and a pass without
    decision only appends the sample and counts it. *)
Lemma undecided_pass (self self' : QRSDetector)
  (raw : raw_measurement) (d : decision) :
  process_measurement butter lfilter self raw = (self', Processed d) ->
  ((time_since_last_detected_qrs self + 1 <= refractory_period self)%Z ->
   d = NoDecision)
  /\ (d = NoDecision ->
      exists timestamp measurement,
        raw = Parsed timestamp measurement
        /\ self'
           = tick (set_most_recent_measurements
                     (deque_append (most_recent_measurements self)
                        measurement) self)).
Proof.
  intros H. apply process_measurement_cases in H.
  destruct H as [(Ho & _) | (t & m & -> & _ & [(Ho & _) | (d' & Ho & He)])];
    try discriminate.
  injection Ho as <-. unfold extract_peaks in He.
  destruct (signal_stages _ _ _) as [s |]; [| discriminate].
  injection He as He. rewrite detect_qrs_cases in He.
  set (appended := set_most_recent_measurements _ self) in *.
  assert (Ht : time_since_last_detected_qrs appended
               = time_since_last_detected_qrs self)
    by (destruct self; reflexivity).
  assert (Hr : refractory_period appended = refractory_period self)
    by (destruct self; reflexivity).
  rewrite Ht, Hr in He.
  destruct (Z.gtb_spec (time_since_last_detected_qrs self + 1)
              (refractory_period self)) as [Hgt | Hle];
    cbn [andb] in He.
  - destruct (0 <? length (detected_peaks_indices s)).
    + destruct (_ >.? _); injection He as <- <-;
        (split; [lia | discriminate]).
    + injection He as <- <-. split; [reflexivity |].
      intros _. now exists t, m.
  - injection He as <- <-. split; [reflexivity |].
    intros _. now exists t, m.
Qed.


(** X4.  A completed pass makes no decision while the incremented counter
    does not exceed the refractory period; and a pass without decision
    changes nothing but the window, to which the sample was appended, and
    the counter, which it increments: the levels and the threshold stay. *)
Theorem pass_without_decision (self self' : QRSDetector)
  (raw : raw_measurement) (d : decision) :
  process_measurement butter lfilter self raw = (self', Processed d) ->
  ((time_since_last_detected_qrs self + 1 <= refractory_period self)%Z ->
   d = NoDecision)
  /\ (d = NoDecision ->
      exists timestamp measurement,
        raw = Parsed timestamp measurement
        /\ self'
           = tick (set_most_recent_measurements
                     (deque_append (most_recent_measurements self)
                        measurement) self)).
Proof. exact (undecided_pass self self' raw d). Qed.

(** The threshold is the blend of the two levels. *)
Lemma threshold_blend_step (self self' : QRSDetector)
  (raw : raw_measurement) (o : outcome) :
  process_measurement butter lfilter self raw = (self', o) ->
  threshold_value self
  = (noise_peak_value self
     + signal_noise_diff_weight self
       * (signal_peak_value self - noise_peak_value self))%float ->
  threshold_value self'
  = (noise_peak_value self'
     + signal_noise_diff_weight self'
       * (signal_peak_value self' - noise_peak_value self'))%float.
Proof.
  intros H Hinv. apply process_measurement_cases in H.
  destruct H as [(_ & -> & _) | (t & m & _ & _ & H)]; [exact Hinv |].
  destruct H as [(_ & -> & _) | (d & _ & He)].
  - destruct self; exact Hinv.
  - unfold extract_peaks in He.
    destruct (signal_stages _ _ _) as [s |]; [| discriminate].
    injection He as He. rewrite detect_qrs_cases in He.
    destruct (_ && _).
    + destruct (_ >.? _); injection He as <- _; destruct self; reflexivity.
    + injection He as <- _. destruct self; exact Hinv.
Qed.

(** X5.  In every state that a run of a fresh detector reaches, the
    threshold is the noise level plus 0.25 times the difference between the
    signal level and the noise level, in floating-point arithmetic. *)
Theorem threshold_is_blend_of_levels (signal_freq : float)
  (lines : list raw_measurement) :
  let final := fst (QRSDetector_run butter lfilter signal_freq lines) in
  threshold_value final
  = (noise_peak_value final
     + 0.25 * (signal_peak_value final - noise_peak_value final))%float.
Proof.
  intros final.
  assert (Hgen : forall l self,
             threshold_value self
             = (noise_peak_value self
                + signal_noise_diff_weight self
                  * (signal_peak_value self - noise_peak_value self))%float ->
             let f := fst (read_loop butter lfilter self l) in
             threshold_value f
             = (noise_peak_value f
                + signal_noise_diff_weight f
                  * (signal_peak_value f - noise_peak_value f))%float).
  { induction l as [| raw rest IH]; intros self Hinv; [exact Hinv |].
    cbn zeta. rewrite fst_read_loop.
    destruct (process_measurement butter lfilter self raw) as [self' o]
      eqn:Hp.
    pose proof (threshold_blend_step _ _ _ _ Hp Hinv) as Hinv'.
    destruct o; [now apply IH | now apply IH | exact Hinv']. }
  specialize (Hgen lines (QRSDetector_init signal_freq) eq_refl).
  cbn zeta in Hgen. fold (QRSDetector_run butter lfilter signal_freq lines)
    in Hgen. fold final in Hgen.
  destruct (read_loop_invariant butter lfilter lines
              (QRSDetector_init signal_freq)) as [Hpar _].
  fold (QRSDetector_run butter lfilter signal_freq lines) in Hpar.
  fold final in Hpar.
  assert (Hw : signal_noise_diff_weight final = 0.25%float).
  { unfold parameters in Hpar. now injection Hpar. }
  now rewrite Hw in Hgen.
Qed.

(** From a state whose counter is not negative, [(r + 1)] times the number
    of detections is at most the counter plus the number of passes. *)
Lemma detections_bound (lines : list raw_measurement) :
  forall self : QRSDetector,
    (0 <= time_since_last_detected_qrs self)%Z ->
    let ds := decisions (snd (read_loop butter lfilter self lines)) in
    (Z.of_nat (count_detections ds) * (refractory_period self + 1)
     <= time_since_last_detected_qrs self + Z.of_nat (length ds))%Z.
Proof.
  induction lines as [| raw rest IH]; intros self Hc; cbn zeta.
  - cbn. lia.
  - rewrite decisions_read_loop.
    destruct (process_measurement butter lfilter self raw) as [self' o]
      eqn:Hp.
    destruct o as [| d |].
    + destruct (unprocessed_counter _ _ _ _ _ _ Hp) as [Hpar Hcnt];
        [discriminate |].
      apply parameters_refractory_period in Hpar.
      rewrite <- Hpar, <- Hcnt. apply IH. lia.
    + destruct (processed_counter _ _ _ _ _ _ Hp) as [Hpar Hcnt].
      apply parameters_refractory_period in Hpar.
      assert (Hc' : (0 <= time_since_last_detected_qrs self')%Z)
        by (destruct d; lia).
      specialize (IH self' Hc'). cbn zeta in IH. rewrite Hpar in IH.
      destruct d; cbn [count_detections length];
        rewrite ?Nat2Z.inj_succ; nia.
    + cbn. lia.
Qed.

(** X6.  In a run of a fresh detector, 121 times the number of detections
    is at most the number of completed passes. *)
Theorem detection_rate_is_bounded (signal_freq : float)
  (lines : list raw_measurement) :
  let ds :=
    decisions (snd (QRSDetector_run butter lfilter signal_freq lines)) in
  121 * count_detections ds <= length ds.
Proof.
  intros ds.
  pose proof (detections_bound lines (QRSDetector_init signal_freq)
                ltac:(cbn; lia)) as H.
  cbn zeta in H. fold (QRSDetector_run butter lfilter signal_freq lines) in H.
  fold ds in H. cbn [QRSDetector_init refractory_period
                       time_since_last_detected_qrs] in H. lia.
Qed.

Lemma count_since_bounds (ds : list decision) :
  forall c : Z,
    (0 <= c)%Z ->
    (0 <= count_since c ds <= c + Z.of_nat (length ds))%Z.
Proof.
  induction ds as [| d ds IH]; intros c Hc; [cbn; lia |].
  destruct d; cbn [count_since length]; rewrite Nat2Z.inj_succ.
  - specialize (IH (c + 1)%Z ltac:(lia)). lia.
  - specialize (IH 0%Z ltac:(lia)). lia.
  - specialize (IH (c + 1)%Z ltac:(lia)). lia.
Qed.

Lemma counter_counts_passes (lines : list raw_measurement) :
  forall self : QRSDetector,
    time_since_last_detected_qrs (fst (read_loop butter lfilter self lines))
    = count_since (time_since_last_detected_qrs self)
        (decisions (snd (read_loop butter lfilter self lines))).
Proof.
  induction lines as [| raw rest IH]; intros self; [reflexivity |].
  rewrite fst_read_loop, decisions_read_loop.
  destruct (process_measurement butter lfilter self raw) as [self' o] eqn:Hp.
  destruct o as [| d |].
  - destruct (unprocessed_counter _ _ _ _ _ _ Hp) as [_ Hcnt];
      [discriminate |].
    rewrite IH, Hcnt. reflexivity.
  - destruct (processed_counter _ _ _ _ _ _ Hp) as [_ Hcnt].
    rewrite IH. destruct d; cbn [count_since].
    + now rewrite Hcnt.
    + destruct Hcnt as [-> _]. reflexivity.
    + now rewrite Hcnt.
  - destruct (unprocessed_counter _ _ _ _ _ _ Hp) as [_ Hcnt];
      [discriminate |].
    exact Hcnt.
Qed.

(** X7.  After a run of a fresh detector the counter is the number of
    completed passes since the last detection (since the start when there
    was none); it is never negative and never more than the number of
    completed passes. *)
Theorem counter_is_passes_since_detection (signal_freq : float)
  (lines : list raw_measurement) :
  let run := QRSDetector_run butter lfilter signal_freq lines in
  time_since_last_detected_qrs (fst run)
  = count_since 0 (decisions (snd run))
  /\ (0 <= time_since_last_detected_qrs (fst run)
      <= Z.of_nat (length (decisions (snd run))))%Z.
Proof.
  intros run.
  pose proof (counter_counts_passes lines (QRSDetector_init signal_freq))
    as H.
  fold (QRSDetector_run butter lfilter signal_freq lines) in H. fold run in H.
  cbn [QRSDetector_init time_since_last_detected_qrs] in H.
  split; [exact H |]. rewrite H.
  pose proof (count_since_bounds (decisions (snd run)) 0%Z ltac:(lia)). lia.
Qed.

Lemma accepted_samples_dropped (raw : raw_measurement)
  (rest : list raw_measurement) :
  is_dropped raw = true ->
  accepted_samples (raw :: rest) = accepted_samples rest.
Proof.
  destruct raw as [| t m]; [reflexivity |].
  cbn [is_dropped accepted_samples]. now intros ->.
Qed.

Lemma window_after_run (lines : list raw_measurement) :
  forall self : QRSDetector,
    maxlen (most_recent_measurements self) = 200 ->
    length (items (most_recent_measurements self)) <= 200 ->
    let run := read_loop butter lfilter self lines in
    items (most_recent_measurements (fst run))
    = last_n 200
        (items (most_recent_measurements self)
         ++ accepted_samples (firstn (length (snd run)) lines)).
Proof.
  induction lines as [| raw rest IH]; intros self Hmax Hlen; cbn zeta.
  - cbn [read_loop fst snd length firstn accepted_samples].
    rewrite app_nil_r. unfold last_n.
    replace (length (items (most_recent_measurements self)) - 200)
      with 0 by lia.
    reflexivity.
  - rewrite fst_read_loop, length_read_loop.
    destruct (process_measurement butter lfilter self raw) as [self' o]
      eqn:Hp.
    pose proof (process_measurement_cases _ _ _ _ _ _ Hp) as Hc.
    destruct Hc as [(-> & -> & Hraw) | (t & m & -> & Hm & Hc)].
    + cbn [firstn]. rewrite accepted_samples_dropped.
      * now apply IH.
      * destruct Hraw as [-> | (t & m & -> & Hm)]; [reflexivity | exact Hm].
    + destruct (deque_append_items (most_recent_measurements self) m
                  Hmax Hlen) as (Hmax' & Hlen' & _ & Hitems).
      assert (Hacc : forall l, accepted_samples (Parsed t m :: l)
                               = m :: accepted_samples l)
        by (intros l; cbn [accepted_samples]; now rewrite Hm).
      destruct Hc as [(-> & -> & _) | (d & -> & He)].
      * cbn [firstn]. rewrite Hacc. cbn [accepted_samples].
        destruct self; exact Hitems.
      * assert (Hw : most_recent_measurements self'
                     = deque_append (most_recent_measurements self) m).
        { unfold extract_peaks in He.
          destruct (signal_stages _ _ _) as [s |]; [| discriminate].
          injection He as He. apply detect_qrs_counter in He.
          destruct He as (_ & _ & -> & _). destruct self; reflexivity. }
        cbn [firstn]. rewrite Hacc.
        specialize (IH self'). cbn zeta in IH.
        rewrite IH by (rewrite Hw; assumption).
        rewrite Hw, Hitems, last_n_app, <- app_assoc. reflexivity.
Qed.

(** X8.  The window is a first-in first-out buffer: after a run of a fresh
    detector it holds the last 200 values of the sequence made of the seed 0
    and the measurements of the lines that were read and not dropped, in
    their order of arrival. *)
Theorem window_holds_latest_samples (signal_freq : float)
  (lines : list raw_measurement) :
  let run := QRSDetector_run butter lfilter signal_freq lines in
  items (most_recent_measurements (fst run))
  = last_n 200
      (0%float :: accepted_samples (firstn (length (snd run)) lines)).
Proof.
  intros run.
  apply (window_after_run lines (QRSDetector_init signal_freq));
    cbn; [reflexivity | lia].
Qed.

Lemma process_measurement_same (self : QRSDetector)
  (raw1 raw2 : raw_measurement) :
  same_measurement raw1 raw2 ->
  process_measurement butter lfilter self raw1
  = process_measurement butter lfilter self raw2.
Proof.
  destruct raw1, raw2; cbn; try contradiction; [reflexivity |].
  now intros ->.
Qed.

(** X9.  The timestamps are read and never used: two sequences of lines
    that give the same measurements, line by line, take every detector to
    the same state with the same outcomes. *)
Theorem timestamps_are_ignored (self : QRSDetector)
  (lines1 lines2 : list raw_measurement) :
  Forall2 same_measurement lines1 lines2 ->
  read_loop butter lfilter self lines1 = read_loop butter lfilter self lines2.
Proof.
  intros H. revert self.
  induction H as [| raw1 raw2 rest1 rest2 Hsame _ IH]; intros self;
    [reflexivity |].
  cbn [read_loop]. rewrite (process_measurement_same self _ _ Hsame).
  destruct (process_measurement butter lfilter self raw2) as [self' o].
  now rewrite IH.
Qed.

Lemma process_measurement_dropped (self : QRSDetector)
  (raw : raw_measurement) :
  is_dropped raw = true ->
  process_measurement butter lfilter self raw = (self, Dropped).
Proof.
  destruct raw as [| t m]; [reflexivity |].
  cbn [is_dropped process_measurement]. now intros ->.
Qed.

Lemma process_measurement_kept (self self' : QRSDetector)
  (raw : raw_measurement) :
  is_dropped raw = false ->
  process_measurement butter lfilter self raw <> (self', Dropped).
Proof.
  intros Hk H. apply process_measurement_cases in H.
  destruct H as [(_ & _ & [-> | (t & m & -> & Hm)])
                | (t & m & _ & _ & [(Ho & _) | (d & Ho & _)])];
    try discriminate. cbn [is_dropped] in Hk. congruence.
Qed.

(** X10.  Dropped lines leave no trace: a run over the lines and a run over
    the same lines without those that are unparsable or above the ceiling
    end in the same state and make the same decisions. *)
Theorem dropped_lines_leave_no_trace (self : QRSDetector)
  (lines : list raw_measurement) :
  let kept := filter (fun raw => negb (is_dropped raw)) lines in
  fst (read_loop butter lfilter self lines)
  = fst (read_loop butter lfilter self kept)
  /\ decisions (snd (read_loop butter lfilter self lines))
     = decisions (snd (read_loop butter lfilter self kept)).
Proof.
  cbn zeta. revert self.
  induction lines as [| raw rest IH]; intros self; [split; reflexivity |].
  cbn [filter]. destruct (is_dropped raw) eqn:Hd; cbn [negb].
  - rewrite fst_read_loop, decisions_read_loop.
    rewrite (process_measurement_dropped self raw Hd). apply IH.
  - rewrite !fst_read_loop, !decisions_read_loop.
    destruct (process_measurement butter lfilter self raw) as [self' o]
      eqn:Hp.
    destruct o as [| d |].
    + now destruct (process_measurement_kept self self' raw Hd).
    + destruct (IH self') as [IH1 IH2]. split; [exact IH1 | now f_equal].
    + split; reflexivity.
Qed.

End MoreRuns.

Lemma pass_without_decision_witness :
  exists timestamp measurement,
    Parsed 0 1 = Parsed timestamp measurement
    /\ fst (process_measurement butter_unit lfilter_direct
              (QRSDetector_init 255) (Parsed 0 1))
       = tick (set_most_recent_measurements
                 (deque_append
                    (most_recent_measurements (QRSDetector_init 255))
                    measurement) (QRSDetector_init 255)).
Proof.
  apply (pass_without_decision butter_unit lfilter_direct
           (QRSDetector_init 255)
           (fst (process_measurement butter_unit lfilter_direct
                   (QRSDetector_init 255) (Parsed 0 1)))
           (Parsed 0 1) NoDecision).
  - vm_compute. reflexivity.
  - reflexivity.
Defined.

Lemma timestamps_are_ignored_witness :
  read_loop butter_unit lfilter_direct (QRSDetector_init 255)
    [Parsed 0 1; Unparsable; Parsed 2 3]
  = read_loop butter_unit lfilter_direct (QRSDetector_init 255)
      [Parsed 7 1; Unparsable; Parsed 9 3].
Proof.
  apply (timestamps_are_ignored butter_unit lfilter_direct
           (QRSDetector_init 255)
           [Parsed 0 1; Unparsable; Parsed 2 3]
           [Parsed 7 1; Unparsable; Parsed 9 3]).
  repeat constructor.
Defined.

(** ** Every accepted sample is counted *)


Section Counting.

Variable butter : Z -> float -> float -> option (list float * list float).
Variable lfilter : list float -> list float -> list float -> list float.

Hypothesis lfilter_length :
  forall b a data, length (lfilter b a data) = length data.




End Counting.


(** ** The first classified peak is a signal peak *)

(** Assigning the window leaves the configuration and the levels alone. *)
Lemma window_update_fields (q : deque) (d : QRSDetector) :
  parameters (set_most_recent_measurements q d) = parameters d
  /\ signal_peak_value (set_most_recent_measurements q d)
     = signal_peak_value d
  /\ noise_peak_value (set_most_recent_measurements q d) = noise_peak_value d
  /\ threshold_value (set_most_recent_measurements q d) = threshold_value d.
Proof. destruct d. cbn. auto. Qed.

Section FirstPeak.

Variable butter : Z -> float -> float -> option (list float * list float).
Variable lfilter : list float -> list float -> list float -> list float.

(** As long as the passes of a run make no decision, the levels stay as
    they were. *)
Lemma levels_while_undecided (lines : list raw_measurement) :
  forall self : QRSDetector,
    let run := read_loop butter lfilter self lines in
    Forall (fun d => d = NoDecision) (decisions (snd run)) ->
    signal_peak_value (fst run) = signal_peak_value self
    /\ noise_peak_value (fst run) = noise_peak_value self
    /\ threshold_value (fst run) = threshold_value self.
Proof.
  induction lines as [| raw rest IH]; intros self run Hds; [cbn; auto |].
  subst run. rewrite decisions_read_loop in Hds. rewrite fst_read_loop.
  destruct (process_measurement butter lfilter self raw) as [self' o] eqn:Hp.
  pose proof (process_measurement_cases _ _ _ _ _ _ Hp) as Hc.
  destruct Hc as [(-> & -> & _) | (t & m & _ & _ & Hc)]; [now apply IH |].
  destruct Hc as [(-> & -> & _) | (d & -> & _)].
  - destruct self; cbn; auto.
  - inversion Hds as [| d' ds' Hd Hrest]; subst.
    destruct (undecided_pass _ _ _ _ _ _ Hp) as [_ Hu].
    destruct (Hu eq_refl) as (t' & m' & _ & Hs').
    destruct (IH self' Hrest) as (H1 & H2 & H3).
    rewrite H1, H2, H3, Hs'. destruct self; cbn; auto.
Qed.

(** With the threshold at 0.0, a pass whose incremented counter exceeds the
    refractory period and that has a peak in the detection window detects
    it. *)
Lemma eligible_pass_at_zero_threshold (self : QRSDetector) (s : stages) :
  default_parameters self ->
  threshold_value self = 0%float ->
  signal_stages butter lfilter self = Some s ->
  (time_since_last_detected_qrs self + 1 > refractory_period self)%Z ->
  detected_peaks_indices s <> [] ->
  let value := last (detected_peaks_values s) 0%float in
  let signal := (0.125 * value + 0.875 * signal_peak_value self)%float in
  (value >.? 0) = true
  /\ extract_peaks butter lfilter self
     = Some (set_threshold_value
               (noise_peak_value self
                + 0.25 * (signal - noise_peak_value self))%float
               (set_signal_peak_value signal
                  (set_time_since_last_detected_qrs 0 (tick self))),
             SignalPeak).
Proof.
  intros Hpar Hthr Hs Hel Hne value signal.
  assert (Hpos : (value >.? 0) = true).
  { apply (detected_values_positive butter lfilter self s Hpar Hs).
    pose proof (signal_stages_inv _ _ _ _ Hs)
      as (_ & _ & _ & _ & _ & _ & Hval).
    assert (Hvne : detected_peaks_values s <> []).
    { rewrite Hval. unfold Np.take.
      destruct (detected_peaks_indices s); [contradiction | discriminate]. }
    subst value. destruct (exists_last Hvne) as (l & x & ->).
    rewrite last_last. apply in_or_app. right. now left. }
  split; [exact Hpos |].
  unfold extract_peaks. rewrite Hs, detect_qrs_cases.
  fold value. rewrite Hthr, Hpos.
  assert (Hlen : (0 <? length (detected_peaks_indices s)) = true).
  { apply Nat.ltb_lt. destruct (detected_peaks_indices s);
      [contradiction | simpl; lia]. }
  rewrite Hlen.
  destruct (Z.gtb_spec (time_since_last_detected_qrs self + 1)
              (refractory_period self)) as [_ | Hle]; [| lia].
  cbn [andb]. subst signal.
  unfold default_parameters, parameters in Hpar.
  destruct self. cbn in Hpar.
  injection Hpar as -> -> -> -> -> -> -> -> -> -> -> ->.
  reflexivity.
Qed.

(** C7.  A fresh detector starts with the signal level, the noise level and
    the threshold at 0.0, and they are still 0.0 after any run in which no
    peak has been classified.  Every peak value that reaches the
    classification is strictly positive.  So the first peak that reaches the
    classification is a signal peak: when the next sample is accepted and
    its pass, the counter having exceeded the refractory period, has a peak
    in the detection window, that pass detects it, resets the counter, and
    sets the signal level to 0.125 * value + 0.875 * 0.0 and the threshold
    to 0.0 + 0.25 * (signal level - 0.0).  In every run a noise peak comes
    after a signal peak. *)
Theorem first_classified_peak_is_signal (signal_freq : float)
  (lines : list raw_measurement) (timestamp measurement : float)
  (s : stages) :
  let fresh := QRSDetector_init signal_freq in
  let run := QRSDetector_run butter lfilter signal_freq lines in
  let appended :=
    set_most_recent_measurements
      (deque_append (most_recent_measurements (fst run)) measurement)
      (fst run) in
  Forall (fun d => d = NoDecision) (decisions (snd run)) ->
  (measurement >.? 10) = false ->
  signal_stages butter lfilter appended = Some s ->
  (time_since_last_detected_qrs appended + 1 > refractory_period appended)%Z ->
  detected_peaks_indices s <> [] ->
  (signal_peak_value fresh = 0%float
   /\ noise_peak_value fresh = 0%float
   /\ threshold_value fresh = 0%float)
  /\ (signal_peak_value (fst run) = 0%float
      /\ noise_peak_value (fst run) = 0%float
      /\ threshold_value (fst run) = 0%float)
  /\ (forall v, In v (detected_peaks_values s) -> (v >.? 0) = true)
  /\ (let value := last (detected_peaks_values s) 0%float in
      let signal := (0.125 * value + 0.875 * 0)%float in
      (value >.? threshold_value appended) = true
      /\ process_measurement butter lfilter (fst run)
           (Parsed timestamp measurement)
         = (set_threshold_value (0 + 0.25 * (signal - 0))%float
              (set_signal_peak_value signal
                 (set_time_since_last_detected_qrs 0 (tick appended))),
            Processed SignalPeak))
  /\ (forall lines' k,
        let ds :=
          decisions (snd (QRSDetector_run butter lfilter signal_freq lines'))
        in
        nth k ds NoDecision = NoisePeak ->
        exists j, j < k /\ nth j ds NoDecision = SignalPeak).
Proof.
  intros fresh run appended Hds Hm Hs Hel Hne.
  split; [repeat split |].
  assert (Hlev : signal_peak_value (fst run) = 0%float
                 /\ noise_peak_value (fst run) = 0%float
                 /\ threshold_value (fst run) = 0%float)
    by exact (levels_while_undecided lines fresh Hds).
  destruct Hlev as (Hsig & Hnoi & Hthr).
  split; [auto |].
  assert (Hp : parameters (fst run) = parameters fresh)
    by exact (proj1 (read_loop_invariant butter lfilter lines fresh)).
  destruct (window_update_fields
              (deque_append (most_recent_measurements (fst run)) measurement)
              (fst run)) as (Hp' & Hsig' & Hnoi' & Hthr').
  fold appended in Hp', Hsig', Hnoi', Hthr'.
  rewrite Hsig in Hsig'. rewrite Hnoi in Hnoi'. rewrite Hthr in Hthr'.
  assert (Hpar : default_parameters appended).
  { unfold default_parameters. rewrite Hp'. exact Hp. }
  split; [exact (detected_values_positive butter lfilter appended s Hpar Hs) |].
  split.
  - destruct (eligible_pass_at_zero_threshold appended s Hpar Hthr' Hs Hel Hne)
      as [Hpos He].
    cbn zeta in Hpos, He |- *.
    split; [now rewrite Hthr' |].
    unfold process_measurement. rewrite Hm. fold appended. rewrite He.
    now rewrite Hsig', Hnoi'.
  - intros lines' k ds Hk.
    apply (noise_follows_signal butter lfilter lines'); auto; reflexivity.
Qed.

End FirstPeak.

Lemma first_classified_peak_is_signal_witness :
  let run :=
    QRSDetector_run butter_unit lfilter_direct 255 (firstn 161 pulse_lines) in
  let measurement := nth 161 pulse_samples 0%float in
  let appended :=
    set_most_recent_measurements
      (deque_append (most_recent_measurements (fst run)) measurement)
      (fst run) in
  let s := pulse_stages 161 in
  (signal_peak_value (QRSDetector_init 255) = 0%float
   /\ noise_peak_value (QRSDetector_init 255) = 0%float
   /\ threshold_value (QRSDetector_init 255) = 0%float)
  /\ (signal_peak_value (fst run) = 0%float
      /\ noise_peak_value (fst run) = 0%float
      /\ threshold_value (fst run) = 0%float)
  /\ (forall v, In v (detected_peaks_values s) -> (v >.? 0) = true)
  /\ (let value := last (detected_peaks_values s) 0%float in
      let signal := (0.125 * value + 0.875 * 0)%float in
      (value >.? threshold_value appended) = true
      /\ process_measurement butter_unit lfilter_direct (fst run)
           (Parsed 0 measurement)
         = (set_threshold_value (0 + 0.25 * (signal - 0))%float
              (set_signal_peak_value signal
                 (set_time_since_last_detected_qrs 0 (tick appended))),
            Processed SignalPeak))
  /\ (forall lines' k,
        let ds :=
          decisions (snd (QRSDetector_run butter_unit lfilter_direct 255
                            lines'))
        in
        nth k ds NoDecision = NoisePeak ->
        exists j, j < k /\ nth j ds NoDecision = SignalPeak).
Proof.
  apply (first_classified_peak_is_signal butter_unit lfilter_direct 255
           (firstn 161 pulse_lines) 0 (nth 161 pulse_samples 0%float)
           (pulse_stages 161)).
  - rewrite pulse_run_161. vm_compute. repeat constructor.
  - vm_compute. reflexivity.
  - rewrite pulse_run_161. vm_compute. reflexivity.
  - rewrite pulse_run_161. vm_compute. reflexivity.
  - vm_compute. discriminate.
Defined.

(** ** Sizes of the arrays and the warm-up *)

Section Sizes.

Variable butter : Z -> float -> float -> option (list float * list float).
Variable lfilter : list float -> list float -> list float -> list float.

Hypothesis lfilter_length :
  forall b a data, length (lfilter b a data) = length data.

(** The sizes of the arrays of a pass, and the range of its peaks. *)
Lemma pass_sizes (self : QRSDetector) (s : stages) :
  default_parameters self ->
  signal_stages butter lfilter self = Some s ->
  let n := length (items (most_recent_measurements self)) in
  2 <= n
  /\ length (filtered_signal s) = n
  /\ length (differentiated_signal s) = n - 1
  /\ length (integrated_signal s) = n + 13
  /\ forall i, In i (detected_peaks_indices s) -> 160 < i < n + 13.
Proof.
  intros Hpar Hs n.
  destruct (detected_peaks_facts butter lfilter self s Hs) as [_ Hfacts].
  pose proof (signal_stages_inv butter lfilter self s Hs)
    as (Hbp & Hdiff & Hsq & Hconv & _ & Hidx & _).
  apply (bandpass_filter_length butter lfilter lfilter_length) in Hbp.
  fold n in Hbp.
  apply parameters_fields in Hpar.
  destruct Hpar as (HN & HW & _ & _ & Hdw). cbn in HN, HW, Hdw.
  assert (Hdl : length (differentiated_signal s)
                = length (filtered_signal s) - 1)
    by (rewrite Hdiff; apply ediff1d_length).
  assert (Hql : length (squared_signal s)
                = length (differentiated_signal s))
    by (rewrite Hsq; apply square_length).
  destruct (convolve_spec _ _ _ Hconv) as [Hil _].
  rewrite ones_length, HW in Hil.
  destruct (convolve_nonempty _ _ _ Hconv) as [Hne _].
  assert (Hsq1 : 1 <= length (squared_signal s))
    by (destruct (squared_signal s); [contradiction | simpl; lia]).
  repeat split; try lia.
  - specialize (Hfacts i H). rewrite Hidx in H. apply filter_In in H.
    destruct H as [_ H]. rewrite HN, Hdw in H.
    apply Z.gtb_lt in H. lia.
  - specialize (Hfacts i H). lia.
Qed.



(** A pass that makes a decision was handed a peak. *)
Lemma decision_needs_peak (self self' : QRSDetector) (d : decision) :
  extract_peaks butter lfilter self = Some (self', d) ->
  d <> NoDecision ->
  exists s, signal_stages butter lfilter self = Some s
    /\ detected_peaks_indices s <> [].
Proof.
  unfold extract_peaks. intros He Hd.
  destruct (signal_stages butter lfilter self) as [s |]; [| discriminate].
  exists s. split; [reflexivity |].
  injection He as He. rewrite detect_qrs_cases in He.
  destruct (_ >? _)%Z; cbn [andb] in He;
    [| injection He as _ <-; contradiction].
  destruct (detected_peaks_indices s); [| discriminate].
  cbn in He. injection He as _ <-. contradiction.
Qed.

Lemma decision_needs_long_window (lines : list raw_measurement) :
  forall (self : QRSDetector) (j : nat),
    default_parameters self ->
    maxlen (most_recent_measurements self) = 200 ->
    length (items (most_recent_measurements self)) <= 200 ->
    nth j (decisions (snd (read_loop butter lfilter self lines))) NoDecision
    <> NoDecision ->
    148 <= length (items (most_recent_measurements self)) + j.
Proof.
  induction lines as [| raw rest IH]; intros self j Hpar Hmax Hlen Hj.
  - destruct j; now destruct Hj.
  - rewrite decisions_read_loop in Hj.
    destruct (process_measurement butter lfilter self raw) as [self' o]
      eqn:Hp.
    pose proof (process_measurement_cases _ _ _ _ _ _ Hp) as Hc.
    destruct Hc as [(-> & -> & _) | (t & m & _ & _ & Hc)];
      [now apply IH |].
    destruct Hc as [(-> & _) | (d & -> & He)];
      [destruct j; now destruct Hj |].
    destruct (deque_append_items (most_recent_measurements self) m
                Hmax Hlen) as (Hmax' & Hlen' & Hstep & _).
    set (appended := set_most_recent_measurements _ self) in *.
    assert (Hwa : most_recent_measurements appended
                  = deque_append (most_recent_measurements self) m)
      by (destruct self; reflexivity).
    assert (Hpa : default_parameters appended)
      by (destruct self; exact Hpar).
    destruct j as [| j'].
    + cbn [nth] in Hj.
      destruct (decision_needs_peak _ _ _ He Hj) as (s & Hs & Hne).
      destruct (pass_sizes appended s Hpa Hs)
        as (_ & _ & _ & _ & Hrange).
      destruct (detected_peaks_indices s) as [| i l]; [contradiction |].
      specialize (Hrange i (or_introl eq_refl)).
      rewrite Hwa in Hrange. lia.
    + cbn [nth] in Hj.
      destruct (process_measurement_invariant _ _ _ _ _ _ Hp) as (Hp' & _).
      assert (Hw' : most_recent_measurements self'
                    = deque_append (most_recent_measurements self) m).
      { unfold extract_peaks in He.
        destruct (signal_stages _ _ _) as [s |]; [| discriminate].
        injection He as He. apply detect_qrs_counter in He.
        destruct He as (_ & _ & -> & _). exact Hwa. }
      assert (Hpar' : default_parameters self')
        by (unfold default_parameters; now rewrite Hp').
      specialize (IH self' j' Hpar').
      rewrite Hw' in IH. specialize (IH Hmax' Hlen' Hj). lia.
Qed.

(** X12.  A fresh detector makes no decision, signal or noise, in its first
    147 completed passes: a peak can be handed to [detect_qrs] only once the
    integrated signal has more than 161 entries. *)
Theorem no_decision_in_first_147_passes (signal_freq : float)
  (lines : list raw_measurement) (j : nat) :
  j < 147 ->
  nth j (decisions (snd (QRSDetector_run butter lfilter signal_freq lines)))
    NoDecision = NoDecision.
Proof.
  intros Hj.
  destruct (nth j _ NoDecision) eqn:Hd; [reflexivity | exfalso | exfalso];
    unfold QRSDetector_run in Hd;
    (assert (Hn : nth j
                    (decisions
                       (snd (read_loop butter lfilter
                               (QRSDetector_init signal_freq) lines)))
                    NoDecision <> NoDecision)
       by (rewrite Hd; discriminate));
    apply decision_needs_long_window in Hn;
    cbn in Hn; try reflexivity; try lia; cbn; lia.
Qed.

End Sizes.


Lemma no_decision_in_first_147_passes_witness :
  nth 1 (decisions (snd (QRSDetector_run butter_unit lfilter_direct 255
                           [Parsed 0 1; Parsed 1 2; Parsed 2 1])))
    NoDecision = NoDecision.
Proof.
  apply (no_decision_in_first_147_passes butter_unit lfilter_direct
           lfilter_direct_length 255
           [Parsed 0 1; Parsed 1 2; Parsed 2 1] 1).
  lia.
Defined.

(** ** Reading a line *)

Lemma rstrip_spaces (ws : text) :
  Forall (fun c => isspace c = true) ws -> rstrip ws = [].
Proof.
  induction 1 as [| c ws Hc _ IH]; [reflexivity |].
  cbn [rstrip]. now rewrite IH, Hc.
Qed.

Lemma rstrip_app_spaces (s ws : text) :
  Forall (fun c => isspace c = true) ws -> rstrip (s ++ ws) = rstrip s.
Proof.
  intros H. induction s as [| c s IH]; [now apply rstrip_spaces |].
  cbn [app rstrip]. now rewrite IH.
Qed.

Lemma split_nonempty (sep : N) (s : text) : split sep s <> [].
Proof.
  destruct s as [| c r]; cbn [split]; [discriminate |].
  destruct (c =? sep)%N; [discriminate |].
  destruct (split sep r); discriminate.
Qed.

(** Joining the fields with the separator gives the string back. *)
Lemma join_split (sep : N) (s : text) : join sep (split sep s) = s.
Proof.
  induction s as [| c r IH]; [reflexivity |].
  cbn [split]. destruct (N.eqb_spec c sep) as [-> | Hne].
  - pose proof (split_nonempty sep r) as Hn.
    destruct (split sep r) as [| f fs]; [contradiction |].
    cbn [join app] in *. now rewrite IH.
  - pose proof (split_nonempty sep r) as Hn.
    destruct (split sep r) as [| f fs]; [contradiction |].
    destruct fs as [| f' fs']; cbn [join app] in *; now rewrite <- IH.
Qed.

Lemma split_fields (sep : N) (s field : text) :
  In field (split sep s) -> ~ In sep field.
Proof.
  revert field. induction s as [| c r IH]; intros field Hf.
  - cbn in Hf. destruct Hf as [<- | []]. intros [].
  - cbn [split] in Hf. destruct (N.eqb_spec c sep) as [-> | Hne].
    + destruct Hf as [<- | Hf]; [intros [] | now apply IH].
    + destruct (split sep r) as [| f fs].
      * destruct Hf as [<- | []]. intros [H | []]. congruence.
      * destruct Hf as [<- | Hf].
        -- intros [H | H]; [congruence |].
           now apply (IH f (or_introl eq_refl)).
        -- apply IH. now right.
Qed.

Lemma split_no_separator (sep : N) (s : text) :
  ~ In sep s -> split sep s = [s].
Proof.
  induction s as [| c r IH]; intros H; [reflexivity |].
  cbn [split]. destruct (N.eqb_spec c sep) as [-> | Hne].
  - destruct H. now left.
  - rewrite IH; [reflexivity |]. intros Hin. apply H. now right.
Qed.

Lemma split_at_separator (sep : N) (f0 rest : text) :
  ~ In sep f0 -> split sep (f0 ++ sep :: rest) = f0 :: split sep rest.
Proof.
  induction f0 as [| c r IH]; intros H.
  - cbn [app split]. now rewrite N.eqb_refl.
  - cbn [app split]. destruct (N.eqb_spec c sep) as [-> | Hne].
    + destruct H. now left.
    + rewrite IH; [reflexivity |]. intros Hin. apply H. now right.
Qed.

(** The string splits into exactly two fields when it holds exactly one
    separator. *)
Lemma split_two_fields (sep : N) (s f0 f1 : text) :
  split sep s = [f0; f1] <->
  s = f0 ++ sep :: f1 /\ ~ In sep f0 /\ ~ In sep f1.
Proof.
  split.
  - intros H. split.
    + rewrite <- (join_split sep s), H. reflexivity.
    + split; apply (split_fields sep s); rewrite H; cbn; auto.
  - intros (-> & H0 & H1).
    now rewrite split_at_separator, split_no_separator.
Qed.

Section ReadingFacts.

Variable to_float : text -> option float.

(** X13.  A line gives a measurement exactly when, once the white space at
    its end is removed, it consists of two fields separated by its only
    semicolon and both fields read as numbers; any other line is
    unparsable.  White space at the end of the line makes no difference. *)
Theorem parse_line_spec (decoded : text) (timestamp measurement : float) :
  (parse_line to_float decoded = Parsed timestamp measurement <->
   exists field0 field1,
     rstrip decoded = field0 ++ semicolon :: field1
     /\ ~ In semicolon field0 /\ ~ In semicolon field1
     /\ to_float field0 = Some timestamp
     /\ to_float field1 = Some measurement)
  /\ (forall ws, Forall (fun c => isspace c = true) ws ->
        parse_line to_float (decoded ++ ws) = parse_line to_float decoded).
Proof.
  split.
  - unfold parse_line. split.
    + intros H.
      destruct (split semicolon (rstrip decoded)) as [| f0 [| f1 [| f2 l]]]
        eqn:Hs; try discriminate.
      apply split_two_fields in Hs. destruct Hs as (Hr & H0 & H1).
      exists f0, f1.
      destruct (to_float f0) as [ts |]; [| discriminate].
      destruct (to_float f1) as [m |]; [| discriminate].
      injection H as -> ->. auto.
    + intros (f0 & f1 & Hr & H0 & H1 & Ht & Hm).
      assert (Hs : split semicolon (rstrip decoded) = [f0; f1])
        by (apply split_two_fields; auto).
      now rewrite Hs, Ht, Hm.
  - intros ws Hws. unfold parse_line. now rewrite rstrip_app_spaces.
Qed.

End ReadingFacts.

(** ** Silence after a detection *)

Section Silence.

Variable butter : Z -> float -> float -> option (list float * list float).
Variable lfilter : list float -> list float -> list float -> list float.

(** As long as the counter cannot have exceeded the refractory period, the
    passes make no decision. *)
Lemma quiet_while_refractory (lines : list raw_measurement) :
  forall (self : QRSDetector) (j : nat),
    (time_since_last_detected_qrs self + Z.of_nat j + 1
     <= refractory_period self)%Z ->
    nth j (decisions (snd (read_loop butter lfilter self lines))) NoDecision
    = NoDecision.
Proof.
  induction lines as [| raw rest IH]; intros self j Hj.
  - destruct j; reflexivity.
  - rewrite decisions_read_loop.
    destruct (process_measurement butter lfilter self raw) as [self' o]
      eqn:Hp.
    destruct o as [| d |].
    + destruct (unprocessed_counter _ _ _ _ _ _ Hp) as [Hpar Hcnt];
        [discriminate |].
      apply parameters_refractory_period in Hpar.
      apply IH. rewrite Hpar, Hcnt. exact Hj.
    + destruct (undecided_pass butter lfilter _ _ _ _ Hp)
        as [Hquiet _].
      assert (Hd : d = NoDecision) by (apply Hquiet; lia). subst d.
      destruct j as [| j']; [reflexivity |]. cbn [nth].
      destruct (processed_counter _ _ _ _ _ _ Hp) as [Hpar Hcnt].
      apply parameters_refractory_period in Hpar.
      apply IH. rewrite Hpar, Hcnt. lia.
    + destruct j; reflexivity.
Qed.

Lemma silence_after_detection (lines : list raw_measurement) :
  forall (self : QRSDetector) (i k : nat),
    nth i (decisions (snd (read_loop butter lfilter self lines))) NoDecision
    = SignalPeak ->
    1 <= k -> (Z.of_nat k <= refractory_period self)%Z ->
    nth (i + k) (decisions (snd (read_loop butter lfilter self lines)))
      NoDecision = NoDecision.
Proof.
  induction lines as [| raw rest IH]; intros self i k Hi Hk1 Hk2.
  - destruct i; discriminate.
  - rewrite decisions_read_loop in *.
    destruct (process_measurement butter lfilter self raw) as [self' o]
      eqn:Hp.
    destruct o as [| d |].
    + destruct (unprocessed_counter _ _ _ _ _ _ Hp) as [Hpar _];
        [discriminate |].
      apply parameters_refractory_period in Hpar.
      apply IH; auto. now rewrite Hpar.
    + destruct (processed_counter _ _ _ _ _ _ Hp) as [Hpar Hcnt].
      apply parameters_refractory_period in Hpar.
      destruct i as [| i'].
      * cbn [nth] in Hi. subst d. destruct Hcnt as [H0 _].
        destruct k as [| k']; [lia |]. cbn [Nat.add nth].
        apply quiet_while_refractory. rewrite H0, Hpar. lia.
      * cbn [nth Nat.add] in *. apply IH; auto. now rewrite Hpar.
    + destruct i; discriminate.
Qed.

(** X14.  After every detection of a run of a fresh detector the next 120
    completed passes make no decision: no peak is classified, as signal or
    as noise, during the refractory period. *)
Theorem no_classification_while_refractory (signal_freq : float)
  (lines : list raw_measurement) :
  let ds :=
    decisions (snd (QRSDetector_run butter lfilter signal_freq lines)) in
  forall i k,
    nth i ds NoDecision = SignalPeak -> 1 <= k <= 120 ->
    nth (i + k) ds NoDecision = NoDecision.
Proof.
  intros ds i k Hi Hk. unfold ds, QRSDetector_run in *.
  apply silence_after_detection; [exact Hi | lia | cbn; lia].
Qed.

End Silence.

Lemma no_classification_while_refractory_witness :
  nth (161 + 1)
    (decisions
       (snd (QRSDetector_run butter_unit lfilter_direct 255
               (firstn 163 pulse_lines))))
    NoDecision = NoDecision.
Proof.
  apply (no_classification_while_refractory butter_unit lfilter_direct 255
           (firstn 163 pulse_lines) 161 1).
  - vm_compute. reflexivity.
  - lia.
Defined.
